(** * Portfolio replay engine of [simulate_portfolio.py]

    A shallow embedding of [get_history] and [simulate_portfolio] and the
    properties of the replay loop.

    Modelling conventions.
    - Prices, share counts and money are exact rationals ([Q]); Python's
      floating-point rounding, [inf] and [nan] are outside the model.
      [x // 2] is [inject_Z (Qfloor (x / 2))].
    - A Python [dict] is an association list in insertion order with
      unique keys ([dict_set] overwrites in place or appends).
    - A pandas history is a list of (date, bar) pairs; its [index] is the
      list of dates, [empty] is the empty list.
    - Exceptions are the [Raise] results of an error monad.
    - [print] calls do not touch the state and are left out.
    - yfinance's [Ticker.history] is the Section variable [yf_history]. *)

From Stdlib Require Import ZArith QArith Qround List String Ascii Bool.
From Stdlib Require Import Lia Lqa Permutation Sorted.
Import ListNotations.

Local Open Scope Q_scope.

(** ** Calendar dates ([datetime.date]) *)

Record date : Type := mkDate { year : Z; month : Z; day : Z }.

(* date.__lt__ : lexicographic on (year, month, day) *)
Definition date_ltb (a b : date) : bool :=
  ((year a <? year b) ||
   ((year a =? year b) &&
    ((month a <? month b) ||
     ((month a =? month b) && (day a <? day b)))))%Z.

Definition date_eqb (a b : date) : bool :=
  ((year a =? year b) && (month a =? month b) && (day a =? day b))%Z.

Definition date_lt (a b : date) : Prop := date_ltb a b = true.

(** ** Exceptions *)

Inductive exn : Type := KeyError | ValueError | IndexError.

Inductive result (A : Type) : Type :=
| Ok : A -> result A
| Raise : exn -> result A.
Arguments Ok {A} _.
Arguments Raise {A} _.

Definition bind {A B : Type} (c : result A) (k : A -> result B) : result B :=
  match c with
  | Ok a => k a
  | Raise e => Raise e
  end.

Notation "x <- c ;; k" := (bind c (fun x => k))
  (at level 61, c at next level, right associativity).
Notation "' p <- c ;; k" := (bind c (fun x => let p := x in k))
  (at level 61, p pattern, c at next level, right associativity).

(** ** Python dictionaries keyed by strings *)

Section Dict.
Context {V : Type}.

Definition dict : Type := list (string * V).

(* d.get(k) *)
Fixpoint dict_get (k : string) (d : dict) : option V :=
  match d with
  | [] => None
  | (k', v) :: d' => if String.eqb k k' then Some v else dict_get k d'
  end.

(* k in d *)
Definition dict_mem (k : string) (d : dict) : bool :=
  match dict_get k d with Some _ => true | None => false end.

(* d[k] = v *)
Fixpoint dict_set (k : string) (v : V) (d : dict) : dict :=
  match d with
  | [] => [(k, v)]
  | (k', v') :: d' =>
      if String.eqb k k' then (k, v) :: d' else (k', v') :: dict_set k v d'
  end.

(* del d[k] *)
Fixpoint dict_del (k : string) (d : dict) : dict :=
  match d with
  | [] => []
  | (k', v') :: d' =>
      if String.eqb k k' then d' else (k', v') :: dict_del k d'
  end.

(* d.keys() *)
Definition dict_keys (d : dict) : list string := map fst d.

(* d[k] as an expression: KeyError when absent *)
Definition dict_find (k : string) (d : dict) : result V :=
  match dict_get k d with
  | Some v => Ok v
  | None => Raise KeyError
  end.
End Dict.
Arguments dict V : clear implicits.

(** ** Price bars and histories *)

Record Bar : Type := mkBar {
  Open : Q; High : Q; Low : Q; Close : Q; Dividends : Q
}.

Definition History : Type := list (date * Bar).

(* hist.index *)
Definition hist_index (h : History) : list date := map fst h.

(* hist.empty *)
Definition hist_empty (h : History) : bool :=
  match h with [] => true | _ => false end.

(* d in hist.index *)
Definition date_mem (d : date) (l : list date) : bool := existsb (date_eqb d) l.

(* hist.loc[d] on a duplicate-free index *)
Fixpoint hist_loc (d : date) (h : History) : option Bar :=
  match h with
  | [] => None
  | (d', b) :: h' => if date_eqb d d' then Some b else hist_loc d h'
  end.

(* hist['Date'].duplicated().any() *)
Fixpoint has_duplicates (l : list date) : bool :=
  match l with
  | [] => false
  | d :: l' => date_mem d l' || has_duplicates l'
  end.

(** ** Recommendations *)

Record Rec : Type := mkRec {
  rec_date : date;
  rec_symbol : string;
  rec_name : string;
  rec_recommendation : string
}.

(* str.lower on ASCII text *)
Definition lower_ascii (c : ascii) : ascii :=
  let n := nat_of_ascii c in
  if ((65 <=? n) && (n <=? 90))%nat then ascii_of_nat (n + 32) else c.

Fixpoint lower (s : string) : string :=
  match s with
  | EmptyString => EmptyString
  | String c s' => String (lower_ascii c) (lower s')
  end.

(* sorted(..., reverse=True, key=lambda x: x['date']): stable, descending *)
Fixpoint insert_desc (x : Rec) (l : list Rec) : list Rec :=
  match l with
  | [] => [x]
  | y :: l' =>
      if date_ltb (rec_date x) (rec_date y) then y :: insert_desc x l'
      else x :: y :: l'
  end.

Fixpoint sorted_desc (l : list Rec) : list Rec :=
  match l with
  | [] => []
  | x :: l' => insert_desc x (sorted_desc l')
  end.

(** ** Constants *)

Definition INVESTMENT : Q := 10000.
Definition SnP500 : string := "SPY"%string.

(** ** Simulation state *)

Record OutputRow : Type := mkRow {
  row_date : date;
  row_investment : Q;
  row_fool : Q;
  row_snp : Q
}.

(** The local variables of [simulate_portfolio]. [applied] is a ghost
    field: it records (current_date, rec) each time the loop body reaches
    the action dispatch (source line 102). *)
Record State : Type := mkState {
  data : list OutputRow;
  portfolio : dict Q;
  history : dict History;
  cash : Q;
  investment : Q;
  applied : list (date * Rec)
}.

Definition set_portfolio (pf : dict Q) (st : State) : State :=
  mkState (data st) pf (history st) (cash st) (investment st) (applied st).
Definition set_history (h : dict History) (st : State) : State :=
  mkState (data st) (portfolio st) h (cash st) (investment st) (applied st).
Definition set_cash (c : Q) (st : State) : State :=
  mkState (data st) (portfolio st) (history st) c (investment st) (applied st).
Definition set_investment (i : Q) (st : State) : State :=
  mkState (data st) (portfolio st) (history st) (cash st) i (applied st).
Definition add_row (r : OutputRow) (st : State) : State :=
  mkState (data st ++ [r]) (portfolio st) (history st) (cash st)
          (investment st) (applied st).
Definition note_applied (d : date) (r : Rec) (st : State) : State :=
  mkState (data st) (portfolio st) (history st) (cash st) (investment st)
          (applied st ++ [(d, r)]).

Definition Qltb (x y : Q) : bool := negb (Qle_bool y x).

(* x // 2 *)
Definition floordiv2 (x : Q) : Q := inject_Z (Qfloor (x / 2)).

Section Engine.
(** [yf_history symbol start end]: the bars yfinance returns;
    [end = None] stands for [datetime.today()]. *)
Variable yf_history : string -> date -> option date -> History.

(* get_history, lines 53-70 *)
Definition get_history (symbol : string) (start : date) (end_ : option date)
  : result History :=
  let hist := yf_history symbol start end_ in
  if hist_empty hist then Ok hist
  else if has_duplicates (hist_index hist) then Raise ValueError
  else Ok hist.

(* lines 104-120 *)
Definition do_buy (current_date : date) (symbol : string) (price : Bar)
           (st : State) : result State :=
  let shares := INVESTMENT / High price in
  let st :=
    match dict_get symbol (portfolio st) with
    | None => set_portfolio (dict_set symbol shares (portfolio st)) st
    | Some n => set_portfolio (dict_set symbol (n + shares) (portfolio st)) st
    end in
  if Qle_bool INVESTMENT (cash st) then
    Ok (set_cash (cash st - INVESTMENT) st)
  else
    let purchase := INVESTMENT - cash st in
    snp_hist <- dict_find SnP500 (history st) ;;
    snp_bar <- match hist_loc current_date snp_hist with
               | Some b => Ok b
               | None => Raise KeyError
               end ;;
    let snp_price := High snp_bar in
    held <- dict_find SnP500 (portfolio st) ;;
    let st := set_portfolio
                (dict_set SnP500 (held + purchase / snp_price) (portfolio st))
                st in
    let st := set_investment (investment st + purchase) st in
    Ok (set_cash 0 st).

(* lines 121-126 *)
Definition do_sell (symbol : string) (price : Bar) (st : State) : State :=
  match dict_get symbol (portfolio st) with
  | Some shares =>
      let st := set_cash (cash st + shares * Low price) st in
      set_portfolio (dict_del symbol (portfolio st)) st
  | None => st
  end.

(* lines 127-132 *)
Definition do_reduce (symbol : string) (price : Bar) (st : State) : State :=
  match dict_get symbol (portfolio st) with
  | Some held =>
      let shares := floordiv2 held in
      let st := set_cash (cash st + shares * Low price) st in
      set_portfolio (dict_set symbol (held - shares) (portfolio st)) st
  | None => st
  end.

(* lines 103-132: dispatch on the lower-cased action *)
Definition apply_action (current_date : date) (symbol : string) (price : Bar)
           (action : string) (st : State) : result State :=
  if String.eqb action "buy"%string then do_buy current_date symbol price st
  else if String.eqb action "sell"%string then Ok (do_sell symbol price st)
  else if String.eqb action "reduce"%string then Ok (do_reduce symbol price st)
  else Ok st.

(* lines 89-132: the body of the while loop after [rec = recs.pop()] *)
Definition process_rec (current_date : date) (rec : Rec) (st : State)
  : result State :=
  let symbol := rec_symbol rec in
  tracked <-
    (if dict_mem symbol (history st) then Ok (Some st)
     else
       hist <- get_history symbol current_date None ;;
       if hist_empty hist then Ok None
       else Ok (Some (set_history (dict_set symbol hist (history st)) st))) ;;
  match tracked with
  | None => Ok st                                   (* continue, line 94 *)
  | Some st =>
      hist <- dict_find symbol (history st) ;;
      match hist_loc current_date hist with
      | None => Ok st                               (* continue, line 101 *)
      | Some price =>
          let action := lower (rec_recommendation rec) in
          apply_action current_date symbol price action
                       (note_applied current_date rec st)
      end
  end.

(** lines 87-88: [while len(recs) and recs[-1]['date'] < current_date].
    The queue is the Python list reversed, so [recs.pop()] takes the
    head. *)
Fixpoint rec_loop (current_date : date) (queue : list Rec) (st : State)
  : result (list Rec * State) :=
  match queue with
  | [] => Ok ([], st)
  | rec :: queue' =>
      if date_ltb (rec_date rec) current_date then
        st' <- process_rec current_date rec st ;;
        rec_loop current_date queue' st'
      else Ok (queue, st)
  end.

(* lines 138-150: one iteration of the valuation loop *)
Definition value_symbol (current_date : date) (hist : dict History)
           (acc : dict Q * Q * Q) (symbol : string)
  : result (dict Q * Q * Q) :=
  let '(pf, fool_amount, snp_amount) := acc in
  h <- dict_find symbol hist ;;
  match hist_loc current_date h with
  | None => Ok acc                                  (* continue, line 140 *)
  | Some price =>
      held <- dict_find symbol pf ;;
      let pf :=
        if Qltb 0 (Dividends price)
        then dict_set symbol (held * (1 + Dividends price / 100)) pf
        else pf in
      held <- dict_find symbol pf ;;
      let amount := held * Close price in
      if String.eqb symbol SnP500 then Ok (pf, fool_amount, amount)
      else Ok (pf, fool_amount + amount, snp_amount)
  end.

(* lines 137-150: [for symbol in portfolio.keys()] *)
Fixpoint value_loop (current_date : date) (hist : dict History)
         (keys : list string) (acc : dict Q * Q * Q)
  : result (dict Q * Q * Q) :=
  match keys with
  | [] => Ok acc
  | symbol :: keys' =>
      acc' <- value_symbol current_date hist acc symbol ;;
      value_loop current_date hist keys' acc'
  end.

(* lines 135-151 *)
Definition valuate (current_date : date) (st : State) : result State :=
  ' (pf, fool_amount, snp_amount) <-
      value_loop current_date (history st) (dict_keys (portfolio st))
                 (portfolio st, cash st, 0) ;;
  let st := set_portfolio pf st in
  Ok (add_row (mkRow current_date (investment st) fool_amount snp_amount) st).

(* index.get_loc(d) on a duplicate-free index *)
Fixpoint get_loc (d : date) (index : list date) : result nat :=
  match index with
  | [] => Raise KeyError
  | d' :: index' =>
      if date_eqb d d' then Ok O
      else (n <- get_loc d index' ;; Ok (S n))
  end.

(* the condition of line 155 *)
Definition is_month_end (index : list date) (current_date : date)
  : result bool :=
  match rev index with
  | [] => Raise IndexError
  | last_date :: _ =>
      if date_eqb current_date last_date then Ok true
      else
        n <- get_loc current_date index ;;
        match nth_error index (n + 1) with
        | None => Raise IndexError
        | Some next => Ok (negb (month next =? month current_date)%Z)
        end
  end.

(* lines 157-162: the month-end listing reads history[symbol].loc[date] *)
Fixpoint report_loop (current_date : date) (st : State)
         (keys : list string) : result unit :=
  match keys with
  | [] => Ok tt
  | symbol :: keys' =>
      if String.eqb symbol SnP500 then report_loop current_date st keys'
      else
        h <- dict_find symbol (history st) ;;
        match hist_loc current_date h with
        | None => Raise KeyError
        | Some price =>
            _ <- dict_find symbol (portfolio st) ;;
            report_loop current_date st keys'
        end
  end.

(* lines 155-166 *)
Definition month_end_report (index : list date) (current_date : date)
           (st : State) : result unit :=
  at_end <- is_month_end index current_date ;;
  if at_end then report_loop current_date st (dict_keys (portfolio st))
  else Ok tt.

(* lines 86-166: the body of the day loop *)
Definition simulate_day (index : list date) (current_date : date)
           (ls : list Rec * State) : result (list Rec * State) :=
  ' (queue, st) <- rec_loop current_date (fst ls) (snd ls) ;;
  st <- valuate current_date st ;;
  _ <- month_end_report index current_date st ;;
  Ok (queue, st).

(* line 85: [for current_date in history[SnP500].index] *)
Fixpoint day_loop (index : list date) (days : list date)
         (ls : list Rec * State) : result (list Rec * State) :=
  match days with
  | [] => Ok ls
  | current_date :: days' =>
      ls' <- simulate_day index current_date ls ;;
      day_loop index days' ls'
  end.

(* line 73 *)
Definition pending (recs : list Rec) (first_date : date) : list Rec :=
  rev (sorted_desc
         (filter (fun x => date_ltb first_date (rec_date x)) recs)).

(* lines 75-82 *)
Definition initial_state (snp_hist : History) : State :=
  mkState [] (dict_set SnP500 0 []) (dict_set SnP500 snp_hist []) 0 0 [].

(* lines 72-166, keeping the final locals *)
Definition run (recs : list Rec) (first_date last_date : date)
  : result (list Rec * State) :=
  snp_hist <- get_history SnP500 first_date (Some last_date) ;;
  let index := hist_index snp_hist in
  day_loop index index (pending recs first_date, initial_state snp_hist).

(* simulate_portfolio: the rows of the returned DataFrame *)
Definition simulate_portfolio (recs : list Rec) (first_date last_date : date)
  : result (list OutputRow) :=
  ls <- run recs first_date last_date ;;
  Ok (data (snd ls)).
End Engine.

(** * Vocabulary of the statements *)

(* portfolio[symbol] after lines 106-111 *)
Definition bought (symbol : string) (price : Bar) (st : State) : Q :=
  match dict_get symbol (portfolio st) with
  | Some n => n + INVESTMENT / High price
  | None => INVESTMENT / High price
  end.

(* history[symbol].loc[d], when both exist *)
Definition bar_at (d : date) (hist : dict History) (symbol : string)
  : option Bar :=
  match dict_get symbol hist with
  | Some h => hist_loc d h
  | None => None
  end.

(* the share count after the accrual of day d *)
Definition accrued (d : date) (hist : dict History) (symbol : string) (s : Q)
  : Q :=
  match bar_at d hist symbol with
  | Some p => if Qltb 0 (Dividends p) then s * (1 + Dividends p / 100) else s
  | None => s
  end.

(* shares * Close of one position on day d; 0 without a bar *)
Definition value_at (d : date) (hist : dict History) (pf : dict Q)
           (symbol : string) : Q :=
  match bar_at d hist symbol, dict_get symbol pf with
  | Some p, Some n => n * Close p
  | _, _ => 0
  end.

Definition not_benchmark (symbol : string) : bool :=
  negb (String.eqb symbol SnP500).

Definition sum_values (d : date) (hist : dict History) (pf : dict Q)
           (keys : list string) : Q :=
  fold_right Qplus 0 (map (value_at d hist pf) (filter not_benchmark keys)).

(* the sum of shares * Close over the open non-benchmark positions *)
Definition fool_positions_value (d : date) (hist : dict History)
           (pf : dict Q) : Q :=
  sum_values d hist pf (dict_keys pf).

(** The states a run of [simulate_portfolio] goes through: the state
    after lines 75-82, after an iteration of the while loop of line 87
    and after the valuation of lines 135-151. *)
Inductive reachable (yf_history : string -> date -> option date -> History)
          (first_date last_date : date) : State -> Prop :=
| reach_init (snp_hist : History) :
    get_history yf_history SnP500 first_date (Some last_date) = Ok snp_hist ->
    reachable yf_history first_date last_date (initial_state snp_hist)
| reach_action (d : date) (rec : Rec) (st st' : State) :
    reachable yf_history first_date last_date st ->
    process_rec yf_history d rec st = Ok st' ->
    reachable yf_history first_date last_date st'
| reach_valuation (d : date) (st st' : State) :
    reachable yf_history first_date last_date st ->
    valuate d st = Ok st' ->
    reachable yf_history first_date last_date st'.

(* every bar the cached histories can yield satisfies [okbar] *)
Definition bars_ok (okbar : Bar -> Prop) (hist : dict History) : Prop :=
  forall symbol p d, bar_at d hist symbol = Some p -> okbar p.

(* every entry of the positions mapping satisfies [okshare] *)
Definition shares_ok (okshare : string -> Q -> Prop) (pf : dict Q) : Prop :=
  Forall (fun e => okshare (fst e) (snd e)) pf.



Definition high_pos (p : Bar) : Prop := 0 < High p.

Definition share_open (symbol : string) (n : Q) : Prop :=
  0 <= n /\ (symbol <> SnP500 -> 0 < n).

(* distinct keys, each with a cached history *)
Definition wf_state (st : State) : Prop :=
  NoDup (dict_keys (portfolio st)) /\
  (forall k, In k (dict_keys (portfolio st)) -> In k (dict_keys (history st))).

(* a is dated no later than b *)
Definition rec_le (a b : Rec) : Prop :=
  date_ltb (rec_date b) (rec_date a) = false.

(* the invariant of a run on complete data *)
Definition covered (yf_history : string -> date -> option date -> History)
           (first_date last_date : date) (todo : list date) (st : State)
  : Prop :=
  reachable yf_history first_date last_date st /\
  In SnP500 (dict_keys (portfolio st)) /\
  dict_get SnP500 (history st)
    = Some (yf_history SnP500 first_date (Some last_date)) /\
  forall s h,
    s <> SnP500 -> dict_get s (history st) = Some h ->
    exists start,
      In start (hist_index (yf_history SnP500 first_date (Some last_date))) /\
      h = yf_history s start None /\
      hist_empty h = false /\
      Forall (fun d => date_ltb d start = false) todo.

(* the recommendation does not sell the benchmark *)
Definition keeps_benchmark (r : Rec) : Prop :=
  rec_symbol r = SnP500 -> lower (rec_recommendation r) <> "sell"%string.

(* the recommendation is not yet due on day t: it is not dated before t *)
Definition not_due (r : Rec) (t : date) : Prop :=
  date_ltb (rec_date r) t = false.

(* decides goals on the order of dates by linear arithmetic on the fields *)
Ltac date_order :=
  unfold date_lt, date_ltb in *;
  repeat match goal with
         | H : _ = false |- _ => apply not_true_iff_false in H
         | |- _ = false => apply not_true_iff_false
         end;
  repeat rewrite ?orb_true_iff, ?andb_true_iff, ?Z.ltb_lt, ?Z.eqb_eq in *;
  lia.

(** * Concrete price data, recommendations and states *)

Definition jan (n : Z) : date := mkDate 2024 1 n.

Definition bar (high low close dividend : Q) : Bar :=
  mkBar high high low close dividend.

Definition spy_bars : History :=
  [(jan 3, bar 100 90 95 0); (jan 4, bar 100 90 96 0)].

(* AAA trades on both benchmark days and pays a dividend on the second *)
Definition yf_full (symbol : string) (start : date) (e : option date)
  : History :=
  if String.eqb symbol "SPY" then spy_bars
  else if String.eqb symbol "AAA"
       then [(jan 3, bar 50 40 45 0); (jan 4, bar 50 40 46 2)]
       else [].

(* AAA has no bar for the second, final benchmark day *)
Definition yf_delisted (symbol : string) (start : date) (e : option date)
  : History :=
  if String.eqb symbol "SPY" then spy_bars
  else if String.eqb symbol "AAA" then [(jan 3, bar 50 40 45 0)]
       else [].

Definition rec_on (d : date) (symbol action : string) : Rec :=
  mkRec d symbol symbol action.

Definition recs_buy_aaa : list Rec := [rec_on (jan 2) "AAA" "BUY"].

(* a state holding 5 shares of AAA next to an empty benchmark position *)
Definition st_held : State :=
  mkState []
          [("SPY"%string, 0); ("AAA"%string, 5)]
          [("SPY"%string, spy_bars);
           ("AAA"%string, yf_full "AAA" (jan 3) None)]
          0 0 [].

Definition run_full : result (list Rec * State) :=
  run yf_full recs_buy_aaa (jan 1) (jan 31).

Definition full_queue : list Rec :=
  match run_full with Ok (queue, _) => queue | Raise _ => [] end.

Definition full_state : State :=
  match run_full with Ok (_, st) => st | Raise _ => initial_state [] end.

(** * Facts about dates *)

Lemma date_eqb_eq (a b : date) : date_eqb a b = true <-> a = b.
Proof.
  unfold date_eqb. destruct a as [y m d], b as [y' m' d']; simpl.
  rewrite !andb_true_iff, !Z.eqb_eq. split.
  - intros [[-> ->] ->]. reflexivity.
  - intros E. injection E as -> -> ->. auto.
Qed.

Lemma date_eqb_refl (a : date) : date_eqb a a = true.
Proof. apply date_eqb_eq. reflexivity. Qed.

Lemma date_ltb_irrefl (a : date) : date_ltb a a = false.
Proof. date_order. Qed.

Lemma date_ltb_trans (a b c : date) :
  date_ltb a b = true -> date_ltb b c = true -> date_ltb a c = true.
Proof. intros H1 H2. date_order. Qed.

Lemma date_ltb_asym (a b : date) :
  date_ltb a b = true -> date_ltb b a = false.
Proof. intros H. date_order. Qed.

(* a <= b and b < c give a < c *)
Lemma date_le_lt_trans (a b c : date) :
  date_ltb b a = false -> date_ltb b c = true -> date_ltb a c = true.
Proof. intros H1 H2. date_order. Qed.

(* a <= b and b <= c give a <= c *)
Lemma date_le_trans (a b c : date) :
  date_ltb b a = false -> date_ltb c b = false -> date_ltb c a = false.
Proof. intros H1 H2. date_order. Qed.

Lemma date_lt_le (a b : date) :
  date_ltb a b = true -> date_ltb b a = false.
Proof. apply date_ltb_asym. Qed.

(** * Facts about dictionaries *)

Section DictFacts.
Context {V : Type}.
Implicit Types (d : dict V) (k : string) (v : V).

Lemma dict_get_set_eq k v d : dict_get k (dict_set k v d) = Some v.
Proof.
  induction d as [|[k' v'] d IH]; simpl.
  - now rewrite String.eqb_refl.
  - destruct (String.eqb k k') eqn:E; simpl.
    + now rewrite String.eqb_refl.
    + now rewrite E.
Qed.

Lemma dict_get_set_neq k k' v d :
  k <> k' -> dict_get k' (dict_set k v d) = dict_get k' d.
Proof.
  intros N. induction d as [|[k1 v1] d IH]; simpl.
  - destruct (String.eqb_spec k' k); congruence.
  - destruct (String.eqb_spec k k1) as [->|N1]; simpl.
    + destruct (String.eqb_spec k' k1); congruence.
    + now rewrite IH.
Qed.

Lemma dict_get_del_neq k k' d :
  k <> k' -> dict_get k' (dict_del k d) = dict_get k' d.
Proof.
  intros N. induction d as [|[k1 v1] d IH]; simpl; [reflexivity|].
  destruct (String.eqb_spec k k1) as [->|N1]; simpl.
  - destruct (String.eqb_spec k' k1); congruence.
  - now rewrite IH.
Qed.

Lemma dict_get_None k d : dict_get k d = None <-> ~ In k (dict_keys d).
Proof.
  induction d as [|[k1 v1] d IH]; simpl; [tauto|].
  destruct (String.eqb_spec k k1) as [->|N1].
  - split; [discriminate | intros H; exfalso; auto].
  - rewrite IH. split; [intros H [E|I]; congruence || auto | tauto].
Qed.

Lemma dict_get_Some_In k v d : dict_get k d = Some v -> In k (dict_keys d).
Proof.
  intros H. destruct (in_dec string_dec k (dict_keys d)) as [I|NI]; [exact I|].
  apply dict_get_None in NI. congruence.
Qed.

Lemma dict_In_get k d : In k (dict_keys d) -> exists v, dict_get k d = Some v.
Proof.
  intros I. destruct (dict_get k d) eqn:E; [eauto|].
  apply dict_get_None in E. contradiction.
Qed.

Lemma dict_mem_true k d : dict_mem k d = true <-> In k (dict_keys d).
Proof.
  unfold dict_mem. split.
  - destruct (dict_get k d) eqn:E; [|discriminate].
    intros _. eapply dict_get_Some_In; eauto.
  - intros I. destruct (dict_In_get _ _ I) as [v ->]. reflexivity.
Qed.

Lemma dict_keys_set_present k v v0 d :
  dict_get k d = Some v0 -> dict_keys (dict_set k v d) = dict_keys d.
Proof.
  induction d as [|[k1 v1] d IH]; simpl; [discriminate|].
  destruct (String.eqb_spec k k1) as [->|N1]; simpl; [reflexivity|].
  intros H. now rewrite IH.
Qed.

Lemma dict_keys_set_absent k v d :
  dict_get k d = None -> dict_keys (dict_set k v d) = dict_keys d ++ [k].
Proof.
  induction d as [|[k1 v1] d IH]; simpl; [reflexivity|].
  destruct (String.eqb_spec k k1) as [->|N1]; simpl; [discriminate|].
  intros H. now rewrite IH.
Qed.

Lemma dict_keys_del_subset k k' d :
  In k' (dict_keys (dict_del k d)) -> In k' (dict_keys d).
Proof.
  induction d as [|[k1 v1] d IH]; simpl; [tauto|].
  destruct (String.eqb_spec k k1) as [->|N1]; simpl; [tauto|].
  intros [E|I]; auto.
Qed.

Lemma dict_set_NoDup k v d :
  NoDup (dict_keys d) -> NoDup (dict_keys (dict_set k v d)).
Proof.
  intros ND. destruct (dict_get k d) eqn:E.
  - erewrite dict_keys_set_present; eauto.
  - rewrite dict_keys_set_absent by exact E.
    apply NoDup_app; [exact ND | repeat constructor; simpl; tauto |].
    intros x Hx [<-|[]]. apply dict_get_None in E. contradiction.
Qed.

Lemma dict_del_NoDup k d :
  NoDup (dict_keys d) -> NoDup (dict_keys (dict_del k d)).
Proof.
  induction d as [|[k1 v1] d IH]; simpl; [auto|].
  intros ND. inversion ND as [|? ? NI ND']; subst.
  destruct (String.eqb_spec k k1) as [->|N1]; simpl; [exact ND'|].
  constructor; [|auto].
  intros I. apply NI. eapply dict_keys_del_subset; eauto.
Qed.

Lemma dict_get_del_eq k d :
  NoDup (dict_keys d) -> dict_get k (dict_del k d) = None.
Proof.
  induction d as [|[k1 v1] d IH]; simpl; [reflexivity|].
  intros ND. inversion ND as [|? ? NI ND']; subst.
  destruct (String.eqb_spec k k1) as [->|N1]; simpl.
  - now apply dict_get_None.
  - destruct (String.eqb_spec k k1); [congruence | auto].
Qed.
End DictFacts.

(** * The loop body on a symbol whose cached history has a bar *)

Section Actions.
Variable yf_history : string -> date -> option date -> History.

Lemma dict_find_Some {V : Type} (k : string) (d : dict V) (v : V) :
  dict_get k d = Some v -> dict_find k d = Ok v.
Proof. unfold dict_find. now intros ->. Qed.

(** With [history[symbol]] cached and a bar for [current_date], lines
    90-101 fall through to the dispatch. *)
Lemma process_rec_cached (current_date : date) (rec : Rec) (st : State)
      (h : History) (price : Bar) :
  dict_get (rec_symbol rec) (history st) = Some h ->
  hist_loc current_date h = Some price ->
  process_rec yf_history current_date rec st =
  apply_action current_date (rec_symbol rec) price
               (lower (rec_recommendation rec))
               (note_applied current_date rec st).
Proof.
  intros Hh Hp. unfold process_rec, dict_mem.
  rewrite Hh. simpl. rewrite (dict_find_Some _ _ _ Hh). simpl.
  now rewrite Hp.
Qed.

(** C5. A REDUCE applied on a trading day to a symbol holding [n] shares
    whose history has a bar for that day liquidates exactly
    [floor (n / 2)] shares at the bar's Low: cash grows by
    [floor (n / 2) * Low], the position keeps [n - floor (n / 2)] shares,
    its key stays in the mapping and no other position changes. *)
Theorem reduce_halves_position :
  forall (current_date : date) (rec : Rec) (st : State) (h : History)
         (price : Bar) (n : Q),
    lower (rec_recommendation rec) = "reduce"%string ->
    dict_get (rec_symbol rec) (history st) = Some h ->
    hist_loc current_date h = Some price ->
    dict_get (rec_symbol rec) (portfolio st) = Some n ->
    exists st',
      process_rec yf_history current_date rec st = Ok st' /\
      cash st' = cash st + inject_Z (Qfloor (n / 2)) * Low price /\
      dict_get (rec_symbol rec) (portfolio st') =
        Some (n - inject_Z (Qfloor (n / 2))) /\
      dict_keys (portfolio st') = dict_keys (portfolio st) /\
      (forall other, other <> rec_symbol rec ->
         dict_get other (portfolio st') = dict_get other (portfolio st)) /\
      investment st' = investment st.
Proof.
  intros d r st h price n Hact Hh Hp Hn.
  rewrite (process_rec_cached _ _ _ _ _ Hh Hp), Hact.
  unfold apply_action, do_reduce. simpl. rewrite Hn.
  eexists. split; [reflexivity|]. simpl. unfold floordiv2.
  repeat split.
  - apply dict_get_set_eq.
  - eapply dict_keys_set_present; eauto.
  - intros other N. apply dict_get_set_neq. congruence.
Qed.
Lemma dict_mem_false {V : Type} (k : string) (d : dict V) :
  dict_mem k d = false -> dict_get k d = None.
Proof. unfold dict_mem. destruct (dict_get k d); [discriminate | reflexivity]. Qed.

(** C7. In a state whose position keys are distinct (every reachable
    state is one), a SELL applied on a trading day to a symbol holding [n]
    shares whose history has a bar for that day adds exactly [n * Low] to
    cash and deletes the symbol's key from the positions mapping (no
    other position changes). A SELL on a symbol without an open position leaves
    positions and cash as they were; the only way that loop body can fail
    is the ValueError of [get_history] on a first fetch with duplicate
    dates. *)
Theorem sell_closes_position :
  forall (current_date : date) (rec : Rec) (st : State),
    lower (rec_recommendation rec) = "sell"%string ->
    NoDup (dict_keys (portfolio st)) ->
    (forall (h : History) (price : Bar) (n : Q),
        dict_get (rec_symbol rec) (history st) = Some h ->
        hist_loc current_date h = Some price ->
        dict_get (rec_symbol rec) (portfolio st) = Some n ->
        exists st',
          process_rec yf_history current_date rec st = Ok st' /\
          cash st' = cash st + n * Low price /\
          dict_get (rec_symbol rec) (portfolio st') = None /\
          ~ In (rec_symbol rec) (dict_keys (portfolio st')) /\
          (forall other, other <> rec_symbol rec ->
             dict_get other (portfolio st') = dict_get other (portfolio st)) /\
          investment st' = investment st) /\
    (dict_get (rec_symbol rec) (portfolio st) = None ->
     match process_rec yf_history current_date rec st with
     | Ok st' => portfolio st' = portfolio st /\ cash st' = cash st
     | Raise e => e = ValueError /\ dict_get (rec_symbol rec) (history st) = None
     end).
Proof.
  intros d r st Hact ND. split.
  - intros h price n Hh Hp Hn.
    rewrite (process_rec_cached _ _ _ _ _ Hh Hp), Hact.
    unfold apply_action, do_sell. simpl. rewrite Hn.
    eexists. split; [reflexivity|]. simpl.
    repeat split.
    + now apply dict_get_del_eq.
    + apply dict_get_None. now apply dict_get_del_eq.
    + intros other N. apply dict_get_del_neq. congruence.
  - intros Hn. unfold process_rec.
    destruct (dict_mem (rec_symbol r) (history st)) eqn:M; simpl.
    + apply dict_mem_true, dict_In_get in M. destruct M as [h Hh].
      rewrite (dict_find_Some _ _ _ Hh). simpl.
      destruct (hist_loc d h) as [price|]; [|auto].
      rewrite Hact. unfold apply_action, do_sell. simpl. rewrite Hn. auto.
    + apply dict_mem_false in M. unfold get_history.
      destruct (hist_empty (yf_history (rec_symbol r) d None)) eqn:E; simpl.
      * rewrite E. simpl. auto.
      * destruct (has_duplicates _); simpl; [auto|].
        rewrite E. simpl. unfold dict_find. rewrite dict_get_set_eq. simpl.
        destruct (hist_loc d _) as [price|]; [|auto].
        rewrite Hact. unfold apply_action, do_sell. simpl. rewrite Hn. auto.
Qed.
Lemma Qle_bool_false (x y : Q) : Qle_bool x y = false <-> y < x.
Proof.
  rewrite <- not_true_iff_false, Qle_bool_iff. split.
  - apply Qnot_le_lt.
  - apply Qlt_not_le.
Qed.

Lemma do_buy_covered (d : date) (symbol : string) (price : Bar) (st : State) :
  INVESTMENT <= cash st ->
  exists st',
    do_buy d symbol price st = Ok st' /\
    dict_get symbol (portfolio st') = Some (bought symbol price st) /\
    (forall other, other <> symbol ->
       dict_get other (portfolio st') = dict_get other (portfolio st)) /\
    cash st' = cash st - INVESTMENT /\
    investment st' = investment st /\
    history st' = history st /\ applied st' = applied st /\ data st' = data st.
Proof.
  intros Hc. apply Qle_bool_iff in Hc. unfold do_buy, bought.
  destruct (dict_get symbol (portfolio st)) as [n|] eqn:Hn; simpl; rewrite Hc;
    (eexists; split; [reflexivity|]; simpl; repeat split;
     [apply dict_get_set_eq | intros other N; apply dict_get_set_neq; congruence]).
Qed.

Lemma do_buy_shortfall (d : date) (symbol : string) (price : Bar) (st : State)
      (snp_hist : History) (snp_bar : Bar) (held : Q) :
  cash st < INVESTMENT ->
  dict_get SnP500 (history st) = Some snp_hist ->
  hist_loc d snp_hist = Some snp_bar ->
  dict_get SnP500
    (dict_set symbol (bought symbol price st) (portfolio st)) = Some held ->
  do_buy d symbol price st =
  Ok (mkState (data st)
        (dict_set SnP500 (held + (INVESTMENT - cash st) / High snp_bar)
           (dict_set symbol (bought symbol price st) (portfolio st)))
        (history st) 0 (investment st + (INVESTMENT - cash st)) (applied st)).
Proof.
  intros Hc Hh Hb Hheld. apply Qle_bool_false in Hc.
  unfold do_buy, bought in *.
  destruct (dict_get symbol (portfolio st)) as [n|] eqn:Hn; simpl; rewrite Hc;
    simpl; rewrite (dict_find_Some _ _ _ Hh); simpl; rewrite Hb; simpl;
    rewrite (dict_find_Some _ _ _ Hheld); reflexivity.
Qed.

(** C1 (as amended). A BUY applied on a trading day to a symbol whose
    history has a bar for that day adds [INVESTMENT / High] shares to the
    symbol's position (creating the key when absent). When cash covers the
    amount, cash drops by exactly [INVESTMENT] and the cumulative
    investment is unchanged. Otherwise, with the benchmark key present,
    the cumulative investment grows by exactly the shortfall
    [INVESTMENT - cash] and cash becomes 0; when the bought symbol is the
    benchmark itself its position grows by the shortfall purchase
    [(INVESTMENT - cash) / High] as well. *)
Theorem buy_books_shares_and_funding :
  forall (current_date : date) (rec : Rec) (st : State) (h : History)
         (price : Bar),
    lower (rec_recommendation rec) = "buy"%string ->
    dict_get (rec_symbol rec) (history st) = Some h ->
    hist_loc current_date h = Some price ->
    (INVESTMENT <= cash st ->
     exists st',
       process_rec yf_history current_date rec st = Ok st' /\
       dict_get (rec_symbol rec) (portfolio st') =
         Some (match dict_get (rec_symbol rec) (portfolio st) with
               | Some n => n + INVESTMENT / High price
               | None => INVESTMENT / High price
               end) /\
       cash st' = cash st - INVESTMENT /\
       investment st' = investment st) /\
    (cash st < INVESTMENT ->
     rec_symbol rec <> SnP500 ->
     forall (snp_hist : History) (snp_bar : Bar),
       dict_get SnP500 (history st) = Some snp_hist ->
       hist_loc current_date snp_hist = Some snp_bar ->
       dict_mem SnP500 (portfolio st) = true ->
       exists st',
         process_rec yf_history current_date rec st = Ok st' /\
         dict_get (rec_symbol rec) (portfolio st') =
           Some (match dict_get (rec_symbol rec) (portfolio st) with
                 | Some n => n + INVESTMENT / High price
                 | None => INVESTMENT / High price
                 end) /\
         investment st' = investment st + (INVESTMENT - cash st) /\
         cash st' = 0) /\
    (cash st < INVESTMENT ->
     rec_symbol rec = SnP500 ->
     exists st',
       process_rec yf_history current_date rec st = Ok st' /\
       dict_get (rec_symbol rec) (portfolio st') =
         Some (match dict_get (rec_symbol rec) (portfolio st) with
               | Some n => n + INVESTMENT / High price
               | None => INVESTMENT / High price
               end + (INVESTMENT - cash st) / High price) /\
       investment st' = investment st + (INVESTMENT - cash st) /\
       cash st' = 0).
Proof.
  intros d r st h price Hact Hh Hp.
  rewrite (process_rec_cached _ _ _ _ _ Hh Hp), Hact.
  unfold apply_action. simpl.
  split; [|split].
  - intros Hc.
    destruct (do_buy_covered d (rec_symbol r) price (note_applied d r st) Hc)
      as (st' & E & Hs & _ & Hcash & Hinv & _).
    exists st'. repeat split; assumption.
  - intros Hc N snp_hist snp_bar Hsh Hsb Hm.
    apply dict_mem_true, dict_In_get in Hm. destruct Hm as [held Hheld].
    erewrite do_buy_shortfall with (held := held); eauto.
    + eexists. split; [reflexivity|]. simpl. repeat split.
      rewrite dict_get_set_neq by congruence. apply dict_get_set_eq.
    + simpl. rewrite dict_get_set_neq by congruence. exact Hheld.
  - intros Hc E.
    erewrite do_buy_shortfall
      with (held := bought (rec_symbol r) price (note_applied d r st)); eauto.
    + eexists. split; [reflexivity|]. simpl. repeat split.
      rewrite <- E. apply dict_get_set_eq.
    + simpl. rewrite <- E. exact Hh.
    + rewrite <- E. apply dict_get_set_eq.
Qed.

(** C3 (as amended). On a BUY applied when cash is below [INVESTMENT],
    with the benchmark key present, the shortfall [INVESTMENT - cash] buys
    benchmark shares at the benchmark's High of that day: the benchmark's
    share count grows by [shortfall / High] (on top of the bought shares
    when the bought symbol is the benchmark itself), and the shortfall is
    added to the cumulative investment. *)
Theorem shortfall_buys_benchmark :
  forall (current_date : date) (rec : Rec) (st : State) (h : History)
         (price : Bar) (snp_hist : History) (snp_bar : Bar) (held : Q),
    lower (rec_recommendation rec) = "buy"%string ->
    dict_get (rec_symbol rec) (history st) = Some h ->
    hist_loc current_date h = Some price ->
    cash st < INVESTMENT ->
    dict_get SnP500 (history st) = Some snp_hist ->
    hist_loc current_date snp_hist = Some snp_bar ->
    dict_get SnP500 (portfolio st) = Some held ->
    exists st',
      process_rec yf_history current_date rec st = Ok st' /\
      dict_get SnP500 (portfolio st') =
        Some ((if String.eqb (rec_symbol rec) SnP500
               then held + INVESTMENT / High price
               else held)
              + (INVESTMENT - cash st) / High snp_bar) /\
      investment st' = investment st + (INVESTMENT - cash st) /\
      cash st' = 0.
Proof.
  intros d r st h price snp_hist snp_bar held Hact Hh Hp Hc Hsh Hsb Hheld.
  rewrite (process_rec_cached _ _ _ _ _ Hh Hp), Hact.
  unfold apply_action. simpl.
  destruct (String.eqb_spec (rec_symbol r) SnP500) as [E|N].
  - erewrite do_buy_shortfall with (held := held + INVESTMENT / High price);
      eauto.
    + eexists. split; [reflexivity|]. simpl. repeat split.
      apply dict_get_set_eq.
    + unfold bought. simpl. rewrite E, Hheld. apply dict_get_set_eq.
  - erewrite do_buy_shortfall with (held := held); eauto.
    + eexists. split; [reflexivity|]. simpl. repeat split.
      apply dict_get_set_eq.
    + simpl. rewrite dict_get_set_neq by congruence. exact Hheld.
Qed.
End Actions.

(** * Valuation and dividend accrual *)

Section Valuation.
Variables (d : date) (hist : dict History).

Lemma value_symbol_inv (k : string) (pf pf1 : dict Q) (fool snp fool1 snp1 : Q) :
  value_symbol d hist (pf, fool, snp) k = Ok (pf1, fool1, snp1) ->
  (bar_at d hist k = None /\ pf1 = pf /\ fool1 = fool /\ snp1 = snp) \/
  (exists p s,
      bar_at d hist k = Some p /\ dict_get k pf = Some s /\
      dict_get k pf1 = Some (accrued d hist k s) /\
      dict_keys pf1 = dict_keys pf /\
      (forall k2, k2 <> k -> dict_get k2 pf1 = dict_get k2 pf) /\
      (if String.eqb k SnP500
       then fool1 = fool /\ snp1 = accrued d hist k s * Close p
       else fool1 = fool + accrued d hist k s * Close p /\ snp1 = snp)).
Proof.
  unfold value_symbol, accrued, bar_at, dict_find.
  destruct (dict_get k hist) as [h|]; simpl; [|discriminate].
  destruct (hist_loc d h) as [p|]; simpl.
  2:{ intros E. injection E as <- <- <-. left. auto. }
  destruct (dict_get k pf) as [s|] eqn:Hs; simpl; [|discriminate].
  intros E. right. exists p, s. split; [reflexivity|]. split; [reflexivity|].
  destruct (Qltb 0 (Dividends p)).
  - rewrite dict_get_set_eq in E. simpl in E.
    destruct (String.eqb k SnP500); injection E as <- <- <-;
      (split; [apply dict_get_set_eq|]; split;
       [eapply dict_keys_set_present; eauto|]; split;
       [intros k2 N; apply dict_get_set_neq; congruence | auto]).
  - rewrite Hs in E. simpl in E.
    destruct (String.eqb k SnP500); injection E as <- <- <-; auto.
Qed.

Lemma value_at_ext (pf pf' : dict Q) (k : string) :
  dict_get k pf' = dict_get k pf -> value_at d hist pf' k = value_at d hist pf k.
Proof. unfold value_at. now intros ->. Qed.

Lemma sum_values_ext (pf pf' : dict Q) (ks : list string) :
  (forall k, In k ks -> dict_get k pf' = dict_get k pf) ->
  sum_values d hist pf' ks = sum_values d hist pf ks.
Proof.
  unfold sum_values. induction ks as [|k ks IH]; simpl; [reflexivity|].
  intros H. destruct (not_benchmark k); simpl.
  - rewrite IH by auto. rewrite (value_at_ext pf pf') by auto. reflexivity.
  - apply IH. auto.
Qed.

(** The loop of lines 137-150 over a duplicate-free key list. *)
Lemma value_loop_spec (ks : list string) :
  NoDup ks ->
  forall (pf pf' : dict Q) (fool snp fool' snp' : Q),
    value_loop d hist ks (pf, fool, snp) = Ok (pf', fool', snp') ->
    dict_keys pf' = dict_keys pf /\
    (forall k, ~ In k ks -> dict_get k pf' = dict_get k pf) /\
    (forall k s, In k ks -> dict_get k pf = Some s ->
                 dict_get k pf' = Some (accrued d hist k s)) /\
    fool' == fool + sum_values d hist pf' ks /\
    (In SnP500 ks ->
     forall p, bar_at d hist SnP500 = Some p ->
               snp' = value_at d hist pf' SnP500) /\
    (~ In SnP500 ks \/ bar_at d hist SnP500 = None -> snp' = snp).
Proof.
  induction ks as [|k ks IH]; intros ND pf pf' fool snp fool' snp' E.
  - simpl in E. injection E as <- <- <-.
    repeat split; auto.
    + intros k s [].
    + unfold sum_values. simpl. ring.
    + intros [].
  - cbn [value_loop] in E. inversion ND as [|? ? NI ND']; subst.
    destruct (value_symbol d hist (pf, fool, snp) k) as [[[pf1 fool1] snp1]|e]
      eqn:E1; cbn [bind] in E; [|discriminate E].
    destruct (IH ND' _ _ _ _ _ _ E) as (Hk & Hout & Hin & Hf & Hs1 & Hs2).
    apply value_symbol_inv in E1.
    destruct E1 as [(Hb & -> & -> & ->) | (p & s & Hb & Hg & Hg1 & Hk1 & Ho1 & Hv)].
    + (* no bar for k: skipped *)
      repeat split.
      * exact Hk.
      * intros k2 N. apply Hout. simpl in N. tauto.
      * intros k2 s [<-|I] G.
        -- rewrite Hout by exact NI. rewrite G. unfold accrued.
           now rewrite Hb.
        -- auto.
      * rewrite Hf. unfold sum_values. simpl.
        destruct (not_benchmark k); simpl; [|reflexivity].
        unfold value_at at 2. rewrite Hb. ring.
      * intros [E0|I] p Hp; [subst k; congruence | eauto].
      * intros [N|Hn].
        -- apply Hs2. left. simpl in N. tauto.
        -- apply Hs2. now right.
    + (* a bar for k *)
      assert (Gk : dict_get k pf' = Some (accrued d hist k s)).
      { rewrite Hout by exact NI. exact Hg1. }
      repeat split.
      * congruence.
      * intros k2 N. simpl in N. rewrite Hout by tauto. apply Ho1.
        intros ->. tauto.
      * intros k2 s2 [<-|I] G.
        -- congruence.
        -- apply Hin; [exact I|]. rewrite Ho1; [exact G|].
           intros ->. contradiction.
      * unfold sum_values in *. simpl. unfold not_benchmark at 1.
        destruct (String.eqb k SnP500); simpl.
        -- destruct Hv as [-> _]. exact Hf.
        -- destruct Hv as [-> _]. rewrite Hf.
           unfold value_at at 2. rewrite Hb, Gk. ring.
      * intros [E0|I] p' Hp'.
        -- subst k. rewrite String.eqb_refl in Hv. destruct Hv as [_ Hv].
           rewrite Hs2 by (left; exact NI). rewrite Hv.
           unfold value_at. rewrite Hb, Gk. reflexivity.
        -- eauto.
      * intros [N|Hn].
        -- simpl in N. destruct (String.eqb_spec k SnP500) as [->|N'];
             [tauto|]. destruct Hv as [_ ->]. apply Hs2. left. tauto.
        -- destruct (String.eqb_spec k SnP500) as [->|N'];
             [congruence|]. destruct Hv as [_ ->]. apply Hs2. now right.
Qed.

(** The loop cannot fail on keys that are open positions with a cached
    history. *)
Lemma value_loop_total (ks : list string) :
  forall (pf : dict Q) (fool snp : Q),
    (forall k, In k ks -> In k (dict_keys pf) /\ In k (dict_keys hist)) ->
    exists out, value_loop d hist ks (pf, fool, snp) = Ok out.
Proof.
  induction ks as [|k ks IH]; intros pf fool snp Hks; cbn [value_loop];
    [eauto|].
  destruct (Hks k (or_introl eq_refl)) as [Ip Ih].
  apply dict_In_get in Ip. destruct Ip as [s Hs].
  apply dict_In_get in Ih. destruct Ih as [h Hh].
  assert (S1 : exists pf1 fool1 snp1,
             value_symbol d hist (pf, fool, snp) k = Ok (pf1, fool1, snp1) /\
             dict_keys pf1 = dict_keys pf).
  { unfold value_symbol, dict_find. rewrite Hh. simpl.
    destruct (hist_loc d h) as [p|]; simpl; [|eauto 6].
    rewrite Hs. simpl. destruct (Qltb 0 (Dividends p)).
    - rewrite dict_get_set_eq. simpl.
      destruct (String.eqb k SnP500); do 3 eexists;
        (split; [reflexivity | eapply dict_keys_set_present; eauto]).
    - rewrite Hs. simpl. destruct (String.eqb k SnP500); eauto 6. }
  destruct S1 as (pf1 & fool1 & snp1 & -> & Hk1). cbn [bind].
  apply IH. intros k2 I. rewrite Hk1. apply Hks. now right.
Qed.
End Valuation.

Lemma Qltb_true (x y : Q) : Qltb x y = true <-> x < y.
Proof. unfold Qltb. rewrite negb_true_iff. apply Qle_bool_false. Qed.

Lemma Qltb_false (x y : Q) : Qltb x y = false <-> y <= x.
Proof. unfold Qltb. rewrite negb_false_iff. apply Qle_bool_iff. Qed.

(** What lines 135-151 do to a state whose positions have distinct keys. *)
Lemma valuate_spec (d : date) (st st' : State) :
  NoDup (dict_keys (portfolio st)) ->
  valuate d st = Ok st' ->
  history st' = history st /\ cash st' = cash st /\
  investment st' = investment st /\ applied st' = applied st /\
  dict_keys (portfolio st') = dict_keys (portfolio st) /\
  (forall k s, dict_get k (portfolio st) = Some s ->
               dict_get k (portfolio st') = Some (accrued d (history st) k s)) /\
  exists row,
    data st' = (data st ++ [row])%list /\
    row_date row = d /\
    row_investment row = investment st /\
    row_fool row == cash st + fool_positions_value d (history st) (portfolio st') /\
    (forall p, dict_mem SnP500 (portfolio st) = true ->
               bar_at d (history st) SnP500 = Some p ->
               row_snp row = value_at d (history st) (portfolio st') SnP500) /\
    (dict_mem SnP500 (portfolio st) = false \/
     bar_at d (history st) SnP500 = None -> row_snp row = 0).
Proof.
  intros ND. unfold valuate.
  destruct (value_loop d (history st) (dict_keys (portfolio st))
                       (portfolio st, cash st, 0))
    as [[[pf fool] snp]|e] eqn:E; cbn [bind]; [|discriminate].
  intros H. injection H as <-. simpl.
  destruct (value_loop_spec d (history st) _ ND _ _ _ _ _ _ E)
    as (Hk & _ & Hin & Hf & Hs1 & Hs2).
  repeat split; auto.
  - intros k s G. apply Hin; [|exact G]. eapply dict_get_Some_In; eauto.
  - eexists. split; [reflexivity|]. simpl. repeat split.
    + unfold fool_positions_value. rewrite Hk. exact Hf.
    + intros p M. apply Hs1. now apply dict_mem_true.
    + intros [M|B]; apply Hs2; [left | now right].
      intros I. apply dict_mem_true in I. congruence.
Qed.

Lemma valuate_total (d : date) (st : State) :
  (forall k, In k (dict_keys (portfolio st)) -> In k (dict_keys (history st))) ->
  exists st', valuate d st = Ok st'.
Proof.
  intros T. unfold valuate.
  destruct (value_loop_total d (history st) (dict_keys (portfolio st))
              (portfolio st) (cash st) 0) as [[[pf fool] snp] ->].
  - intros k I. auto.
  - cbn [bind]. eauto.
Qed.

(** C6. In a state whose position keys are distinct and have a cached
    history each (every reachable state is one), during the valuation of a
    trading day every open position (the benchmark included) whose bar for
    that day carries a dividend [v > 0] has its share count [s] replaced
    by [s * (1 + v / 100)], and
    the values entering that day's row are computed from the replaced
    counts; with a dividend of 0 or without a bar for the day the share
    count is unchanged. *)
Theorem dividend_accrual_before_valuation :
  forall (current_date : date) (st : State),
    NoDup (dict_keys (portfolio st)) ->
    (forall k, In k (dict_keys (portfolio st)) ->
               In k (dict_keys (history st))) ->
    exists st' row,
      valuate current_date st = Ok st' /\
      (forall symbol s p,
          dict_get symbol (portfolio st) = Some s ->
          bar_at current_date (history st) symbol = Some p ->
          0 < Dividends p ->
          dict_get symbol (portfolio st') =
            Some (s * (1 + Dividends p / 100))) /\
      (forall symbol s p,
          dict_get symbol (portfolio st) = Some s ->
          bar_at current_date (history st) symbol = Some p ->
          Dividends p == 0 ->
          dict_get symbol (portfolio st') = Some s) /\
      (forall symbol s,
          dict_get symbol (portfolio st) = Some s ->
          bar_at current_date (history st) symbol = None ->
          dict_get symbol (portfolio st') = Some s) /\
      data st' = (data st ++ [row])%list /\
      row_fool row ==
        cash st +
        fold_right Qplus 0
          (map (fun symbol =>
                  match bar_at current_date (history st) symbol,
                        dict_get symbol (portfolio st') with
                  | Some p, Some s' => s' * Close p
                  | _, _ => 0
                  end)
               (filter (fun symbol => negb (String.eqb symbol SnP500))
                       (dict_keys (portfolio st)))) /\
      (forall s' p,
          dict_get SnP500 (portfolio st') = Some s' ->
          bar_at current_date (history st) SnP500 = Some p ->
          row_snp row = s' * Close p).
Proof.
  intros d st ND T.
  destruct (valuate_total d st T) as [st' E].
  destruct (valuate_spec d st st' ND E)
    as (_ & _ & _ & _ & Hk & Hacc & row & Hdata & _ & _ & Hfool & Hsnp & _).
  exists st', row. split; [exact E|].
  split; [|split; [|split; [|split; [|split]]]].
  - intros symbol s p G B V. rewrite (Hacc _ _ G). unfold accrued.
    rewrite B. apply Qltb_true in V. now rewrite V.
  - intros symbol s p G B V. rewrite (Hacc _ _ G). unfold accrued.
    rewrite B. assert (F : Qltb 0 (Dividends p) = false).
    { apply Qltb_false. rewrite V. apply Qle_refl. }
    now rewrite F.
  - intros symbol s G B. rewrite (Hacc _ _ G). unfold accrued. now rewrite B.
  - exact Hdata.
  - rewrite Hfool. unfold fool_positions_value, sum_values. rewrite Hk.
    reflexivity.
  - intros s' p G B. rewrite (Hsnp p).
    + unfold value_at. now rewrite B, G.
    + apply dict_mem_true. rewrite <- Hk. eapply dict_get_Some_In; eauto.
    + exact B.
Qed.

(** * States of a run *)

Section Reach.
Variable yf_history : string -> date -> option date -> History.

Lemma set_history_same (st : State) : set_history (history st) st = st.
Proof. now destruct st. Qed.

Lemma get_history_Ok (symbol : string) (start : date) (e : option date)
      (h : History) :
  get_history yf_history symbol start e = Ok h -> h = yf_history symbol start e.
Proof.
  unfold get_history. destruct (hist_empty _); [congruence|].
  destruct (has_duplicates _); congruence.
Qed.

(** The three ways the loop body of lines 89-132 ends normally: the
    recommendation is dropped (line 94), the action is skipped (line 101),
    or the action is dispatched on the bar of the day. [hs] is the history
    cache after lines 90-97. *)
Lemma process_rec_inv (d : date) (rec : Rec) (st st' : State) :
  process_rec yf_history d rec st = Ok st' ->
  exists hs,
    (hs = history st \/
     (dict_get (rec_symbol rec) (history st) = None /\
      hist_empty (yf_history (rec_symbol rec) d None) = false /\
      hs = dict_set (rec_symbol rec) (yf_history (rec_symbol rec) d None)
                    (history st))) /\
    (st' = st \/
     (st' = set_history hs st /\ bar_at d hs (rec_symbol rec) = None) \/
     exists price,
       bar_at d hs (rec_symbol rec) = Some price /\
       apply_action d (rec_symbol rec) price (lower (rec_recommendation rec))
                    (note_applied d rec (set_history hs st)) = Ok st').
Proof.
  unfold process_rec.
  destruct (dict_mem (rec_symbol rec) (history st)) eqn:M; cbn [bind].
  - apply dict_mem_true, dict_In_get in M. destruct M as [h Hh].
    rewrite (dict_find_Some _ _ _ Hh). cbn [bind].
    intros E. exists (history st). split; [now left|].
    rewrite set_history_same. unfold bar_at. rewrite Hh.
    destruct (hist_loc d h) as [price|].
    + right. right. eauto.
    + left. congruence.
  - apply dict_mem_false in M.
    destruct (get_history yf_history (rec_symbol rec) d None) as [hist|e]
      eqn:G; cbn [bind]; [|discriminate].
    apply get_history_Ok in G. subst hist.
    destruct (hist_empty _); cbn [bind].
    + intros E. exists (history st). split; [now left|]. left. congruence.
    + unfold dict_find. cbn [history set_history].
      rewrite dict_get_set_eq. cbn [bind]. intros E.
      eexists. split; [right; split; [exact M | split; reflexivity]|].
      unfold bar_at. rewrite dict_get_set_eq.
      destruct (hist_loc d _) as [price|].
      * right. right. eauto.
      * right. left. split; [congruence | reflexivity].
Qed.

End Reach.

Lemma do_buy_inv (d : date) (symbol : string) (price : Bar) (st st' : State) :
  do_buy d symbol price st = Ok st' ->
  history st' = history st /\ data st' = data st /\
  applied st' = applied st /\
  ((INVESTMENT <= cash st /\
    portfolio st' = dict_set symbol (bought symbol price st) (portfolio st) /\
    cash st' = cash st - INVESTMENT /\ investment st' = investment st) \/
   (exists snp_bar held,
       cash st < INVESTMENT /\
       bar_at d (history st) SnP500 = Some snp_bar /\
       dict_get SnP500
         (dict_set symbol (bought symbol price st) (portfolio st)) = Some held /\
       portfolio st' =
         dict_set SnP500 (held + (INVESTMENT - cash st) / High snp_bar)
           (dict_set symbol (bought symbol price st) (portfolio st)) /\
       cash st' = 0 /\
       investment st' = investment st + (INVESTMENT - cash st))).
Proof.
  unfold do_buy, bought, bar_at, dict_find.
  destruct (dict_get symbol (portfolio st)) as [n|];
    cbn [cash history portfolio set_portfolio].
  all: destruct (Qle_bool INVESTMENT (cash st)) eqn:C.
  all: try (apply Qle_bool_iff in C; intros E; injection E as <-; simpl;
            repeat split; left; auto).
  all: apply Qle_bool_false in C.
  all: destruct (dict_get SnP500 (history st)) as [sh|]; cbn [bind];
    [|intros E; discriminate E].
  all: destruct (hist_loc d sh) as [sb|]; cbn [bind];
    [|intros E; discriminate E].
  all: match goal with
       | |- context [dict_get SnP500 (dict_set ?k ?v ?p)] =>
           destruct (dict_get SnP500 (dict_set k v p)) as [held|] eqn:H
       end; cbn [bind]; [|intros E; discriminate E].
  all: intros E; injection E as <-; simpl; repeat split;
    right; exists sb, held; repeat split; auto.
Qed.

Lemma apply_action_frame (d : date) (symbol : string) (price : Bar)
      (action : string) (st st' : State) :
  apply_action d symbol price action st = Ok st' ->
  history st' = history st /\ data st' = data st /\ applied st' = applied st.
Proof.
  unfold apply_action.
  destruct (String.eqb action "buy").
  { intros E. apply do_buy_inv in E. tauto. }
  destruct (String.eqb action "sell").
  { intros E. injection E as <-. unfold do_sell.
    destruct (dict_get symbol (portfolio st)); auto. }
  destruct (String.eqb action "reduce").
  { intros E. injection E as <-. unfold do_reduce.
    destruct (dict_get symbol (portfolio st)); auto. }
  intros E. injection E as <-. auto.
Qed.

(** * Invariants of the reachable states *)

Lemma hist_loc_In (d : date) (h : History) (p : Bar) :
  hist_loc d h = Some p -> In (d, p) h.
Proof.
  induction h as [|[d' b] h IH]; simpl; [discriminate|].
  destruct (date_eqb d d') eqn:E.
  - apply date_eqb_eq in E. subst d'. intros H. injection H as ->. now left.
  - auto.
Qed.

Lemma dict_get_In {V : Type} (k : string) (v : V) (d : dict V) :
  dict_get k d = Some v -> In (k, v) d.
Proof.
  induction d as [|[k' v'] d IH]; simpl; [discriminate|].
  destruct (String.eqb_spec k k') as [->|N].
  - intros H. injection H as ->. now left.
  - auto.
Qed.

Lemma Forall_dict_set {V : Type} (P : string * V -> Prop) (k : string) (v : V)
      (d : dict V) :
  Forall P d -> P (k, v) -> Forall P (dict_set k v d).
Proof.
  intros F Hv. induction F as [|[k' v'] d Hx F IH]; simpl.
  - constructor; auto.
  - destruct (String.eqb k k'); constructor; auto.
Qed.

Lemma Forall_dict_del {V : Type} (P : string * V -> Prop) (k : string)
      (d : dict V) :
  Forall P d -> Forall P (dict_del k d).
Proof.
  intros F. induction F as [|[k' v'] d Hx F IH]; simpl; [constructor|].
  destruct (String.eqb k k'); [assumption | constructor; auto].
Qed.

Lemma shares_ok_get (okshare : string -> Q -> Prop) (pf : dict Q)
      (k : string) (n : Q) :
  shares_ok okshare pf -> dict_get k pf = Some n -> okshare k n.
Proof.
  intros F G. apply dict_get_In in G. unfold shares_ok in F.
  rewrite Forall_forall in F. exact (F _ G).
Qed.

Section Invariants.
Variable yf_history : string -> date -> option date -> History.
Variable okbar : Bar -> Prop.
Variable okshare : string -> Q -> Prop.

Hypothesis provider_ok :
  forall symbol start e,
    Forall (fun x => okbar (snd x)) (yf_history symbol start e).
Hypothesis ok_init : okshare SnP500 0.
Hypothesis ok_first :
  forall symbol p, okbar p -> okshare symbol (INVESTMENT / High p).
Hypothesis ok_add :
  forall symbol p n,
    okbar p -> okshare symbol n -> okshare symbol (n + INVESTMENT / High p).
Hypothesis ok_fund :
  forall p held c,
    okbar p -> c < INVESTMENT -> okshare SnP500 held ->
    okshare SnP500 (held + (INVESTMENT - c) / High p).
Hypothesis ok_reduce :
  forall symbol n, okshare symbol n -> okshare symbol (n - floordiv2 n).
Hypothesis ok_dividend :
  forall symbol n v,
    0 < v -> okshare symbol n -> okshare symbol (n * (1 + v / 100)).

Lemma provider_loc_ok (symbol : string) (start : date) (e : option date)
      (d : date) (p : Bar) :
  hist_loc d (yf_history symbol start e) = Some p -> okbar p.
Proof.
  intros H. apply hist_loc_In in H.
  pose proof (provider_ok symbol start e) as F.
  rewrite Forall_forall in F. exact (F _ H).
Qed.

Lemma bars_ok_set (hist : dict History) (symbol : string) (start : date)
      (e : option date) :
  bars_ok okbar hist ->
  bars_ok okbar (dict_set symbol (yf_history symbol start e) hist).
Proof.
  intros B s p d. unfold bar_at.
  destruct (String.eqb_spec symbol s) as [->|N].
  - rewrite dict_get_set_eq. apply provider_loc_ok.
  - rewrite dict_get_set_neq by exact N. apply B.
Qed.

Lemma bought_ok (symbol : string) (price : Bar) (st : State) :
  okbar price -> shares_ok okshare (portfolio st) ->
  okshare symbol (bought symbol price st).
Proof.
  intros Hp F. unfold bought.
  destruct (dict_get symbol (portfolio st)) as [n|] eqn:G.
  - apply ok_add; [exact Hp|]. eapply shares_ok_get; eauto.
  - now apply ok_first.
Qed.

Lemma apply_action_shares_ok (d : date) (symbol : string) (price : Bar)
      (action : string) (st st' : State) :
  bars_ok okbar (history st) -> okbar price ->
  shares_ok okshare (portfolio st) ->
  apply_action d symbol price action st = Ok st' ->
  shares_ok okshare (portfolio st').
Proof.
  intros B Hp F. unfold apply_action.
  destruct (String.eqb action "buy").
  { intros E. apply do_buy_inv in E.
    destruct E as (_ & _ & _ & [(_ & -> & _) | (sb & held & C & Hb & Hh & -> & _)]).
    - apply Forall_dict_set; [exact F|]. now apply bought_ok.
    - assert (F1 : shares_ok okshare
                     (dict_set symbol (bought symbol price st) (portfolio st))).
      { apply Forall_dict_set; [exact F|]. now apply bought_ok. }
      apply Forall_dict_set; [exact F1|].
      apply ok_fund; [eapply B; eauto | exact C |].
      eapply shares_ok_get; eauto. }
  destruct (String.eqb action "sell").
  { intros E. injection E as <-. unfold do_sell.
    destruct (dict_get symbol (portfolio st)); [|exact F].
    simpl. now apply Forall_dict_del. }
  destruct (String.eqb action "reduce").
  { intros E. injection E as <-. unfold do_reduce.
    destruct (dict_get symbol (portfolio st)) as [n|] eqn:G; [|exact F].
    simpl. apply Forall_dict_set; [exact F|].
    apply ok_reduce. eapply shares_ok_get; eauto. }
  intros E. injection E as <-. exact F.
Qed.

Lemma value_loop_shares_ok (d : date) (hist : dict History) (ks : list string) :
  forall (pf pf' : dict Q) (fool snp fool' snp' : Q),
    shares_ok okshare pf ->
    value_loop d hist ks (pf, fool, snp) = Ok (pf', fool', snp') ->
    shares_ok okshare pf'.
Proof.
  induction ks as [|k ks IH]; intros pf pf' fool snp fool' snp' F E.
  - simpl in E. injection E as <- <- <-. exact F.
  - cbn [value_loop] in E.
    destruct (value_symbol d hist (pf, fool, snp) k) as [[[pf1 fool1] snp1]|e]
      eqn:E1; cbn [bind] in E; [|discriminate E].
    eapply IH; [|exact E].
    clear E IH. unfold value_symbol, dict_find in E1.
    destruct (dict_get k hist) as [h|]; cbn [bind] in E1; [|discriminate E1].
    destruct (hist_loc d h) as [p|]; cbn [bind] in E1.
    2:{ injection E1 as <- <- <-. exact F. }
    destruct (dict_get k pf) as [s|] eqn:G; cbn [bind] in E1;
      [|discriminate E1].
    destruct (Qltb 0 (Dividends p)) eqn:V.
    + rewrite dict_get_set_eq in E1. cbn [bind] in E1.
      assert (F1 : shares_ok okshare
                     (dict_set k (s * (1 + Dividends p / 100)) pf)).
      { apply Forall_dict_set; [exact F|]. apply ok_dividend.
        - now apply Qltb_true.
        - eapply shares_ok_get; eauto. }
      destruct (String.eqb k SnP500); injection E1 as <- <- <-; exact F1.
    + rewrite G in E1. cbn [bind] in E1.
      destruct (String.eqb k SnP500); injection E1 as <- <- <-; exact F.
Qed.

Lemma valuate_shares_ok (d : date) (st st' : State) :
  shares_ok okshare (portfolio st) ->
  valuate d st = Ok st' ->
  shares_ok okshare (portfolio st') /\ history st' = history st /\
  cash st' = cash st.
Proof.
  intros F. unfold valuate.
  destruct (value_loop d (history st) (dict_keys (portfolio st))
                       (portfolio st, cash st, 0))
    as [[[pf fool] snp]|e] eqn:E; cbn [bind]; [|intros H; discriminate H].
  intros H. injection H as <-. simpl. repeat split.
  eapply value_loop_shares_ok; eauto.
Qed.

(** Bars and share counts of every reachable state. *)
Lemma reachable_ok (first_date last_date : date) (st : State) :
  reachable yf_history first_date last_date st ->
  bars_ok okbar (history st) /\ shares_ok okshare (portfolio st).
Proof.
  induction 1 as [snp_hist G | d rec st st' R [B F] E | d st st' R [B F] E].
  - apply get_history_Ok in G. subst snp_hist. split.
    + apply (bars_ok_set []). intros s p d. unfold bar_at. simpl. discriminate.
    + repeat constructor. exact ok_init.
  - apply process_rec_inv in E. destruct E as (hs & Hhs & Hst).
    assert (Bhs : bars_ok okbar hs).
    { destruct Hhs as [->|(_ & _ & ->)]; [exact B | now apply bars_ok_set]. }
    destruct Hst as [-> | [[-> _] | (price & Hp & E)]].
    + auto.
    + auto.
    + destruct (apply_action_frame _ _ _ _ _ _ E) as (Hh & _).
      simpl in Hh. rewrite Hh. split; [exact Bhs|].
      eapply apply_action_shares_ok; [| | |exact E]; simpl; eauto.
  - destruct (valuate_shares_ok _ _ _ F E) as (F' & -> & _). auto.
Qed.
End Invariants.

(** * Sign facts on the arithmetic of the actions *)


Lemma Qdiv_pos (a b : Q) : 0 < a -> 0 < b -> 0 < a / b.
Proof.
  intros Ha Hb. unfold Qdiv. apply Qmult_lt_0_compat; [exact Ha|].
  now apply Qinv_lt_0_compat.
Qed.

Lemma INVESTMENT_pos : 0 < INVESTMENT.
Proof. reflexivity. Qed.

Lemma floordiv2_le_half (n : Q) : floordiv2 n <= n / 2.
Proof. unfold floordiv2. apply Qfloor_le. Qed.


Lemma reduce_keeps_nonneg (n : Q) : 0 <= n -> 0 <= n - floordiv2 n.
Proof.
  intros Hn. pose proof (floordiv2_le_half n) as H.
  change (n / 2) with (n * (1 # 2)) in H. lra.
Qed.

Lemma reduce_keeps_pos (n : Q) : 0 < n -> 0 < n - floordiv2 n.
Proof.
  intros Hn. pose proof (floordiv2_le_half n) as H.
  change (n / 2) with (n * (1 # 2)) in H. lra.
Qed.

Lemma dividend_factor_pos (v : Q) : 0 < v -> 0 < 1 + v / 100.
Proof. intros Hv. change (v / 100) with (v * (1 # 100)). lra. Qed.

(** * The loops stay within the reachable states *)

Section RunFacts.
Variable yf_history : string -> date -> option date -> History.
Variables first_date last_date : date.

Local Abbreviation reach := (reachable yf_history first_date last_date).

Lemma rec_loop_reachable (d : date) (queue : list Rec) :
  forall (st : State) (queue' : list Rec) (st' : State),
    reach st ->
    rec_loop yf_history d queue st = Ok (queue', st') ->
    reach st'.
Proof.
  induction queue as [|r queue IH]; intros st queue' st' R E.
  - simpl in E. injection E as <- <-. exact R.
  - cbn [rec_loop] in E. destruct (date_ltb (rec_date r) d).
    + destruct (process_rec yf_history d r st) as [st1|e] eqn:E1;
        cbn [bind] in E; [|discriminate E].
      eapply IH; [|exact E]. eapply reach_action; eauto.
    + injection E as <- <-. exact R.
Qed.

Lemma simulate_day_inv (index : list date) (d : date)
      (ls ls' : list Rec * State) :
  simulate_day yf_history index d ls = Ok ls' ->
  exists queue st1 st2,
    rec_loop yf_history d (fst ls) (snd ls) = Ok (queue, st1) /\
    valuate d st1 = Ok st2 /\
    month_end_report index d st2 = Ok tt /\
    ls' = (queue, st2).
Proof.
  unfold simulate_day.
  destruct (rec_loop yf_history d (fst ls) (snd ls)) as [[queue st1]|e]
    eqn:E1; cbn [bind]; [|intros E; discriminate E].
  destruct (valuate d st1) as [st2|e] eqn:E2; cbn [bind];
    [|intros E; discriminate E].
  destruct (month_end_report index d st2) as [[]|e] eqn:E3; cbn [bind];
    [|intros E; discriminate E].
  intros E. injection E as <-. exists queue, st1, st2. auto.
Qed.

Lemma simulate_day_reachable (index : list date) (d : date)
      (ls ls' : list Rec * State) :
  reach (snd ls) ->
  simulate_day yf_history index d ls = Ok ls' ->
  reach (snd ls').
Proof.
  intros R E. apply simulate_day_inv in E.
  destruct E as (queue & st1 & st2 & E1 & E2 & _ & ->). simpl.
  eapply reach_valuation; [|exact E2].
  eapply rec_loop_reachable; eauto.
Qed.

Lemma day_loop_reachable (index days : list date) :
  forall ls ls',
    reach (snd ls) ->
    day_loop yf_history index days ls = Ok ls' ->
    reach (snd ls').
Proof.
  induction days as [|d days IH]; intros ls ls' R E.
  - simpl in E. injection E as <-. exact R.
  - cbn [day_loop] in E.
    destruct (simulate_day yf_history index d ls) as [ls1|e] eqn:E1;
      cbn [bind] in E; [|discriminate E].
    eapply IH; [|exact E]. eapply simulate_day_reachable; eauto.
Qed.

Lemma day_loop_app (index l1 l2 : list date) :
  forall ls ls',
    day_loop yf_history index (l1 ++ l2) ls = Ok ls' <->
    exists mid,
      day_loop yf_history index l1 ls = Ok mid /\
      day_loop yf_history index l2 mid = Ok ls'.
Proof.
  induction l1 as [|d l1 IH]; intros ls ls'; simpl.
  - split; [eauto|]. intros (mid & E & H). injection E as <-. exact H.
  - destruct (simulate_day yf_history index d ls) as [ls1|e]; cbn [bind].
    + apply IH.
    + split; [intros E; discriminate E|]. intros (mid & E & _). discriminate E.
Qed.

(** A run is the day loop over the benchmark's index, started in the
    initial state. *)
Lemma run_inv (recs : list Rec) (ls : list Rec * State) :
  run yf_history recs first_date last_date = Ok ls ->
  exists snp_hist,
    get_history yf_history SnP500 first_date (Some last_date) = Ok snp_hist /\
    day_loop yf_history (hist_index snp_hist) (hist_index snp_hist)
             (pending recs first_date, initial_state snp_hist) = Ok ls.
Proof.
  unfold run.
  destruct (get_history yf_history SnP500 first_date (Some last_date))
    as [snp_hist|e]; cbn [bind]; [eauto | intros E; discriminate E].
Qed.

(** Every state at a day boundary of a run, the final one included, is
    reachable. *)
Lemma run_prefix_reachable (snp_hist : History) (recs : list Rec)
      (days : list date) (ls : list Rec * State) :
  get_history yf_history SnP500 first_date (Some last_date) = Ok snp_hist ->
  day_loop yf_history (hist_index snp_hist) days
           (pending recs first_date, initial_state snp_hist) = Ok ls ->
  reach (snd ls).
Proof.
  intros G E. eapply day_loop_reachable; [|exact E].
  simpl. now apply reach_init.
Qed.
End RunFacts.

(** * Cash and share counts along a run *)

Section Signs.
Variable yf_history : string -> date -> option date -> History.
Variables first_date last_date : date.


Lemma reachable_open (st : State) :
  (forall symbol start e,
      Forall (fun x => high_pos (snd x)) (yf_history symbol start e)) ->
  reachable yf_history first_date last_date st ->
  bars_ok high_pos (history st) /\ shares_ok share_open (portfolio st).
Proof.
  intros P. apply reachable_ok; unfold share_open, high_pos.
  - exact P.
  - split; [apply Qle_refl | congruence].
  - intros s p Hh.
    assert (0 < INVESTMENT / High p)
      by (apply Qdiv_pos; [reflexivity | exact Hh]).
    split; [lra | intros _; assumption].
  - intros s p n Hh [Hn _].
    assert (0 < INVESTMENT / High p)
      by (apply Qdiv_pos; [reflexivity | exact Hh]).
    split; [lra | intros _; lra].
  - intros p held c Hh Hc [Hn _].
    assert (0 < (INVESTMENT - c) / High p)
      by (apply Qdiv_pos; [lra | exact Hh]).
    split; [lra | congruence].
  - intros s n [Hn Hpos]. split.
    + now apply reduce_keeps_nonneg.
    + intros N. apply reduce_keeps_pos. auto.
  - intros s n v Hv [Hn Hpos].
    pose proof (dividend_factor_pos v Hv) as Hf. split.
    + apply Qmult_le_0_compat; [exact Hn | now apply Qlt_le_weak].
    + intros N. apply Qmult_lt_0_compat; auto.
Qed.




Lemma in_keys_set {V : Type} (k k' : string) (v : V) (d : dict V) :
  In k' (dict_keys (dict_set k v d)) -> k' = k \/ In k' (dict_keys d).
Proof.
  intros I. apply dict_In_get in I. destruct I as [v' G].
  destruct (string_dec k k') as [->|N]; [now left|].
  rewrite dict_get_set_neq in G by exact N.
  right. eapply dict_get_Some_In; eauto.
Qed.

Lemma bar_at_tracked (d : date) (hist : dict History) (symbol : string)
      (p : Bar) :
  bar_at d hist symbol = Some p -> In symbol (dict_keys hist).
Proof.
  unfold bar_at. destruct (dict_get symbol hist) eqn:G; [|discriminate].
  intros _. eapply dict_get_Some_In; eauto.
Qed.

Lemma apply_action_wf (d : date) (symbol : string) (price : Bar)
      (action : string) (st st' : State) :
  wf_state st ->
  bar_at d (history st) symbol = Some price ->
  apply_action d symbol price action st = Ok st' ->
  wf_state st'.
Proof.
  intros [ND T] Hp E. pose proof (apply_action_frame _ _ _ _ _ _ E) as (Hh & _).
  unfold wf_state. rewrite Hh. revert E. unfold apply_action.
  destruct (String.eqb action "buy").
  { intros E. apply do_buy_inv in E.
    destruct E as (_ & _ & _ & [(_ & -> & _) | (sb & held & _ & Hb & _ & -> & _)]).
    - split; [now apply dict_set_NoDup|].
      intros k I. apply in_keys_set in I. destruct I as [->|I]; [|auto].
      eapply bar_at_tracked; eauto.
    - split; [now do 2 apply dict_set_NoDup|].
      intros k I. apply in_keys_set in I. destruct I as [->|I].
      + eapply bar_at_tracked; eauto.
      + apply in_keys_set in I. destruct I as [->|I]; [|auto].
        eapply bar_at_tracked; eauto. }
  destruct (String.eqb action "sell").
  { intros E. injection E as <-. unfold do_sell.
    destruct (dict_get symbol (portfolio st)); [|now split].
    simpl. split; [now apply dict_del_NoDup|].
    intros k I. apply T. eapply dict_keys_del_subset; eauto. }
  destruct (String.eqb action "reduce").
  { intros E. injection E as <-. unfold do_reduce.
    destruct (dict_get symbol (portfolio st)) eqn:G; [|now split].
    simpl. erewrite dict_keys_set_present by eauto. now split. }
  intros E. injection E as <-. now split.
Qed.

Lemma keys_set_incl {V : Type} (k k' : string) (v : V) (d : dict V) :
  In k' (dict_keys d) -> In k' (dict_keys (dict_set k v d)).
Proof.
  intros I. destruct (dict_get k d) eqn:G.
  - erewrite dict_keys_set_present; eauto.
  - rewrite dict_keys_set_absent by exact G. apply in_or_app. now left.
Qed.

(** Every reachable state has distinct position keys, each with a cached
    history. *)
Lemma reachable_wf (st : State) :
  reachable yf_history first_date last_date st -> wf_state st.
Proof.
  induction 1 as [snp_hist G | d rec st st' R [ND T] E | d st st' R [ND T] E].
  - split; simpl.
    + repeat constructor. simpl. tauto.
    + intros k I. exact I.
  - apply process_rec_inv in E. destruct E as (hs & Hhs & Hst).
    assert (Ths : forall k, In k (dict_keys (portfolio st)) ->
                            In k (dict_keys hs)).
    { destruct Hhs as [->|(_ & _ & ->)]; [exact T|].
      intros k I. apply keys_set_incl. auto. }
    destruct Hst as [-> | [[-> _] | (price & Hp & E)]].
    + now split.
    + now split.
    + eapply apply_action_wf; [| |exact E]; simpl; [now split | exact Hp].
  - destruct (valuate_spec _ _ _ ND E) as (Hh & _ & _ & _ & Hk & _).
    unfold wf_state. rewrite Hh, Hk. now split.
Qed.

(** C8 (as amended). The benchmark key is created at initialization with
    share count 0. With positive High prices, in every reachable state
    (after initialization and after every applied action or valuation)
    every key of the positions mapping other than the benchmark maps to a
    strictly positive share count, and the benchmark's share count is never
    negative; a SELL that finds a position deletes its key instead of
    storing 0 under it. *)
Theorem open_positions_hold_shares :
  (forall symbol start e,
      Forall (fun x => 0 < High (snd x)) (yf_history symbol start e)) ->
  (forall snp_hist,
      dict_get SnP500 (portfolio (initial_state snp_hist)) = Some 0) /\
  (forall st symbol n,
      reachable yf_history first_date last_date st ->
      dict_get symbol (portfolio st) = Some n ->
      0 <= n /\ (symbol <> SnP500 -> 0 < n)) /\
  (forall st d rec st',
      reachable yf_history first_date last_date st ->
      lower (rec_recommendation rec) = "sell"%string ->
      process_rec yf_history d rec st = Ok st' ->
      dict_get (rec_symbol rec) (portfolio st') = None \/
      portfolio st' = portfolio st).
Proof.
  intros P. split; [reflexivity|]. split.
  - intros st symbol n R G.
    destruct (reachable_open st P R) as [_ F].
    exact (shares_ok_get _ _ _ _ F G).
  - intros st d rec st' R Hact E.
    destruct (reachable_wf st R) as [ND _].
    apply process_rec_inv in E. destruct E as (hs & _ & Hst).
    destruct Hst as [-> | [[-> _] | (price & Hp & E)]]; [now right..|].
    rewrite Hact in E. unfold apply_action in E. simpl in E.
    injection E as <-. unfold do_sell. simpl.
    destruct (dict_get (rec_symbol rec) (portfolio st)) as [n|] eqn:G;
      [|now right].
    left. simpl. now apply dict_get_del_eq.
Qed.
End Signs.

(** * One row per trading day *)

Section Rows.
Variable yf_history : string -> date -> option date -> History.
Variables first_date last_date : date.

Local Abbreviation reach := (reachable yf_history first_date last_date).

Lemma process_rec_frame (d : date) (rec : Rec) (st st' : State) :
  process_rec yf_history d rec st = Ok st' ->
  data st' = data st /\
  (applied st' = applied st \/ applied st' = (applied st ++ [(d, rec)])%list).
Proof.
  intros E. apply process_rec_inv in E. destruct E as (hs & _ & Hst).
  destruct Hst as [-> | [[-> _] | (price & _ & E)]]; [auto..|].
  apply apply_action_frame in E. destruct E as (_ & -> & ->). auto.
Qed.

Lemma rec_loop_data (d : date) (queue : list Rec) :
  forall st queue' st',
    rec_loop yf_history d queue st = Ok (queue', st') -> data st' = data st.
Proof.
  induction queue as [|r queue IH]; intros st queue' st' E.
  - simpl in E. now injection E as <- <-.
  - cbn [rec_loop] in E. destruct (date_ltb (rec_date r) d).
    + destruct (process_rec yf_history d r st) as [st1|e] eqn:E1;
        cbn [bind] in E; [|discriminate E].
      rewrite (IH _ _ _ E). now apply process_rec_frame in E1.
    + now injection E as <- <-.
Qed.

(** The row of one trading day: dated that day, and valued from the
    state the day ends in. *)
Lemma simulate_day_row (index : list date) (d : date)
      (ls ls' : list Rec * State) :
  reach (snd ls) ->
  simulate_day yf_history index d ls = Ok ls' ->
  exists row,
    data (snd ls') = (data (snd ls) ++ [row])%list /\
    row_date row = d /\
    row_investment row = investment (snd ls') /\
    row_fool row ==
      cash (snd ls') +
      fool_positions_value d (history (snd ls')) (portfolio (snd ls')).
Proof.
  intros R E. apply simulate_day_inv in E.
  destruct E as (queue & st1 & st2 & E1 & E2 & _ & ->). simpl.
  assert (R1 : reach st1) by (eapply rec_loop_reachable; eauto).
  destruct (reachable_wf _ _ _ _ R1) as [ND _].
  destruct (valuate_spec _ _ _ ND E2)
    as (Hh & Hc & Hi & _ & _ & _ & row & Hd & Hdate & Hinv & Hf & _).
  exists row. rewrite Hd, Hh, Hc, Hi, (rec_loop_data _ _ _ _ _ E1). auto.
Qed.

Lemma day_loop_rows (index days : list date) :
  forall ls ls',
    reach (snd ls) ->
    day_loop yf_history index days ls = Ok ls' ->
    exists rows,
      data (snd ls') = (data (snd ls) ++ rows)%list /\
      map row_date rows = days.
Proof.
  induction days as [|d days IH]; intros ls ls' R E.
  - simpl in E. injection E as <-. exists []. now rewrite app_nil_r.
  - cbn [day_loop] in E.
    destruct (simulate_day yf_history index d ls) as [ls1|e] eqn:E1;
      cbn [bind] in E; [|discriminate E].
    destruct (simulate_day_row _ _ _ _ R E1) as (row & Hd & Hdate & _).
    destruct (IH _ _ (simulate_day_reachable _ _ _ _ _ _ _ R E1) E)
      as (rows & Hrows & Hdates).
    exists (row :: rows). split.
    + rewrite Hrows, Hd, <- app_assoc. reflexivity.
    + simpl. now rewrite Hdate, Hdates.
Qed.

(** C2. When a run returns, its table has exactly one row per trading
    day of the benchmark's history, in the order of that history (hence
    ascending when the history is), and the portfolio value of the row of
    a day equals the cash plus the sum of shares * Close over the open
    non-benchmark positions with a bar for that day, both taken in the
    state that day ends in; for the last trading day that state is the
    final state of the run. *)
Theorem one_row_per_trading_day :
  forall (recs queue : list Rec) (st : State),
    run yf_history recs first_date last_date = Ok (queue, st) ->
    let snp_hist := yf_history SnP500 first_date (Some last_date) in
    let index := hist_index snp_hist in
    map row_date (data st) = index /\
    (StronglySorted date_lt index ->
     StronglySorted date_lt (map row_date (data st))) /\
    (forall before d after,
        index = (before ++ d :: after)%list ->
        exists queue_d st_d row,
          day_loop yf_history index (before ++ [d])
                   (pending recs first_date, initial_state snp_hist)
            = Ok (queue_d, st_d) /\
          nth_error (data st) (List.length before) = Some row /\
          row_date row = d /\
          row_fool row ==
            cash st_d +
            fool_positions_value d (history st_d) (portfolio st_d)) /\
    (forall before d,
        index = (before ++ [d])%list ->
        exists rows row,
          data st = (rows ++ [row])%list /\
          row_date row = d /\
          row_fool row ==
            cash st + fool_positions_value d (history st) (portfolio st)).
Proof.
  intros recs queue st E snp_hist index.
  apply run_inv in E. destruct E as (h & G & E).
  pose proof (get_history_Ok _ _ _ _ _ G) as Hh. subst h.
  fold snp_hist in G, E. fold index in E.
  assert (R0 : reach (snd (pending recs first_date, initial_state snp_hist)))
    by (simpl; now apply reach_init).
  assert (Hall : map row_date (data st) = index).
  { destruct (day_loop_rows _ _ _ _ R0 E) as (rows & Hd & Hdates).
    simpl in Hd. now rewrite Hd. }
  split; [exact Hall|]. split; [now rewrite Hall|]. split.
  - intros before d after Hsplit.
    rewrite Hsplit in E at 2.
    change (before ++ d :: after)%list
      with (before ++ [d] ++ after)%list in E.
    rewrite app_assoc in E. apply day_loop_app in E.
    destruct E as ([queue_d st_d] & Ed & Eafter).
    pose proof Ed as Ed'. apply day_loop_app in Ed'.
    destruct Ed' as (mid & Eb & Eday). cbn [day_loop] in Eday.
    destruct (simulate_day yf_history index d mid) as [ls1|e] eqn:E1;
      cbn [bind] in Eday; [|discriminate Eday].
    injection Eday as ->.
    assert (Rm : reach (snd mid)) by (eapply day_loop_reachable; eauto).
    destruct (day_loop_rows _ _ _ _ R0 Eb) as (rows_b & Hdb & Hdates_b).
    destruct (simulate_day_row _ _ _ _ Rm E1) as (row & Hd & Hdate & _ & Hf).
    assert (Rd : reach (snd (queue_d, st_d)))
      by (eapply simulate_day_reachable; eauto).
    destruct (day_loop_rows _ _ _ _ Rd Eafter) as (rows_a & Hda & _).
    simpl in *. exists queue_d, st_d, row. split; [exact Ed|].
    split; [|split; [exact Hdate | exact Hf]].
    rewrite Hda, Hd, Hdb, <- app_assoc. simpl.
    rewrite nth_error_app2; rewrite <- Hdates_b, length_map; [|lia].
    now rewrite Nat.sub_diag.
  - intros before d Hsplit. rewrite Hsplit in E at 2.
    apply day_loop_app in E. destruct E as (mid & Eb & Eday).
    cbn [day_loop] in Eday.
    destruct (simulate_day yf_history index d mid) as [ls1|e] eqn:E1;
      cbn [bind] in Eday; [|discriminate Eday].
    injection Eday as ->.
    assert (Rm : reach (snd mid)) by (eapply day_loop_reachable; eauto).
    destruct (simulate_day_row _ _ _ _ Rm E1) as (row & Hd & Hdate & _ & Hf).
    simpl in *. eauto.
Qed.
End Rows.

(** * When recommendations are applied *)

Lemma insert_desc_perm (x : Rec) (l : list Rec) :
  Permutation (x :: l) (insert_desc x l).
Proof.
  induction l as [|y l IH]; simpl; [reflexivity|].
  destruct (date_ltb (rec_date x) (rec_date y)); [|reflexivity].
  rewrite perm_swap. now constructor.
Qed.

Lemma sorted_desc_perm (l : list Rec) : Permutation l (sorted_desc l).
Proof.
  induction l as [|x l IH]; simpl; [reflexivity|].
  rewrite <- insert_desc_perm. now constructor.
Qed.

Lemma insert_desc_sorted (x : Rec) (l : list Rec) :
  StronglySorted (fun a b => rec_le b a) l ->
  StronglySorted (fun a b => rec_le b a) (insert_desc x l).
Proof.
  induction 1 as [|y l S IH F]; simpl.
  - repeat constructor.
  - destruct (date_ltb (rec_date x) (rec_date y)) eqn:C.
    + constructor; [exact IH|].
      rewrite <- insert_desc_perm. constructor; [|exact F].
      unfold rec_le. now apply date_ltb_asym.
    + constructor; [now constructor|].
      constructor; [exact C|].
      rewrite Forall_forall in *. intros z I. specialize (F z I).
      unfold rec_le in *. eapply date_le_trans; eauto.
Qed.

Lemma sorted_desc_sorted (l : list Rec) :
  StronglySorted (fun a b => rec_le b a) (sorted_desc l).
Proof.
  induction l as [|x l IH]; simpl; [constructor | now apply insert_desc_sorted].
Qed.

Lemma StronglySorted_snoc {A : Type} (R : A -> A -> Prop) (m : list A)
      (x : A) :
  StronglySorted R m -> Forall (fun b => R b x) m ->
  StronglySorted R (m ++ [x]).
Proof.
  induction 1 as [|y m S IH Fy]; intros F; simpl.
  - repeat constructor.
  - inversion F as [|? ? Ryx F']; subst. constructor; [now apply IH|].
    apply Forall_app. split; [exact Fy | now repeat constructor].
Qed.

Lemma StronglySorted_rev {A : Type} (R : A -> A -> Prop) (l : list A) :
  StronglySorted (fun a b => R b a) l -> StronglySorted R (rev l).
Proof.
  induction 1 as [|x l S IH F]; simpl; [constructor|].
  apply StronglySorted_snoc; [exact IH|]. now apply Forall_rev.
Qed.

Lemma StronglySorted_app_r {A : Type} (R : A -> A -> Prop) (l1 l2 : list A) :
  StronglySorted R (l1 ++ l2) -> StronglySorted R l2.
Proof.
  induction l1 as [|x l1 IH]; simpl; [auto|].
  intros S. inversion S; subst. auto.
Qed.

Lemma valuate_applied (d : date) (st st' : State) :
  valuate d st = Ok st' -> applied st' = applied st.
Proof.
  unfold valuate.
  destruct (value_loop _ _ _ _) as [[[pf fool] snp]|e]; cbn [bind];
    [|intros E; discriminate E].
  intros E. now injection E as <-.
Qed.

Section Timing.
Variable yf_history : string -> date -> option date -> History.

(** The while loop of line 87 pops exactly the leading recommendations
    dated before the current date, and logs each at most once. *)
Lemma rec_loop_spec (d : date) (queue : list Rec) :
  forall st queue' st',
    rec_loop yf_history d queue st = Ok (queue', st') ->
    exists popped app skipped,
      queue = (popped ++ queue')%list /\
      Forall (fun r => date_lt (rec_date r) d) popped /\
      Permutation (app ++ skipped) popped /\
      applied st' = (applied st ++ map (pair d) app)%list /\
      match queue' with
      | [] => True
      | r0 :: _ => not_due r0 d
      end.
Proof.
  induction queue as [|r queue IH]; intros st queue' st' E.
  - simpl in E. injection E as <- <-. exists [], [], [].
    simpl. rewrite app_nil_r. auto.
  - cbn [rec_loop] in E. destruct (date_ltb (rec_date r) d) eqn:C.
    + destruct (process_rec yf_history d r st) as [st1|e] eqn:E1;
        cbn [bind] in E; [|discriminate E].
      destruct (IH _ _ _ E) as (popped & app & skipped & -> & F & P & A & Hd).
      apply process_rec_frame in E1. destruct E1 as [_ [A1|A1]].
      * exists (r :: popped), app, (r :: skipped). repeat split; auto.
        -- rewrite <- Permutation_middle. now constructor.
        -- now rewrite A, A1.
      * exists (r :: popped), (r :: app), skipped. repeat split; auto.
        -- simpl. now constructor.
        -- rewrite A, A1, <- app_assoc. reflexivity.
    + injection E as <- <-. exists [], [], []. simpl.
      rewrite app_nil_r. auto.
Qed.

Lemma day_loop_applied (index : list date) (days : list date) :
  forall done queue st queue' st',
    day_loop yf_history index days (queue, st) = Ok (queue', st') ->
    StronglySorted rec_le queue ->
    (forall r, In r queue -> Forall (not_due r) done) ->
    exists app skipped,
      applied st' = (applied st ++ app)%list /\
      Permutation (map snd app ++ skipped ++ queue') queue /\
      (forall t r,
          In (t, r) app ->
          date_lt (rec_date r) t /\
          exists l1 l2,
            days = (l1 ++ t :: l2)%list /\
            Forall (not_due r) (done ++ l1)).
Proof.
  induction days as [|d days IH]; intros done queue st queue' st' E S Hdone.
  - simpl in E. injection E as <- <-. exists [], []. simpl.
    rewrite app_nil_r.
    split; [reflexivity | split; [reflexivity | intros t r []]].
  - cbn [day_loop] in E.
    destruct (simulate_day yf_history index d (queue, st)) as [ls1|e] eqn:E1;
      cbn [bind] in E; [|discriminate E].
    apply simulate_day_inv in E1.
    destruct E1 as (q1 & st1 & st2 & Er & Ev & _ & ->). simpl in Er.
    apply valuate_applied in Ev.
    destruct (rec_loop_spec _ _ _ _ _ Er)
      as (popped & app1 & skipped1 & Hq & Fp & P1 & A1 & Hhead).
    subst queue.
    assert (S1 : StronglySorted rec_le q1)
      by (eapply StronglySorted_app_r; eauto).
    assert (Hdone1 : forall r, In r q1 -> Forall (not_due r) (done ++ [d])).
    { intros r I. apply Forall_app. split.
      - apply Hdone. apply in_or_app. now right.
      - constructor; [|constructor].
        destruct q1 as [|r0 rest]; [contradiction|].
        destruct I as [<-|I]; [exact Hhead|].
        inversion S1 as [|? ? _ F0]; subst.
        rewrite Forall_forall in F0. specialize (F0 r I).
        unfold not_due, rec_le in *. eapply date_le_trans; eauto. }
    destruct (IH _ _ _ _ _ E S1 Hdone1) as (app2 & skipped2 & A2 & P2 & H2).
    exists (map (pair d) app1 ++ app2)%list, (skipped1 ++ skipped2)%list.
    split; [|split].
    + rewrite A2, Ev, A1, <- app_assoc. reflexivity.
    + rewrite map_app, map_map. simpl. rewrite map_id.
      rewrite <- P1, <- P2, <- !app_assoc.
      apply Permutation_app_head. apply Permutation_app_swap_app.
    + intros t r I. apply in_app_or in I. destruct I as [I|I].
      * apply in_map_iff in I. destruct I as (r' & Heq & I).
        injection Heq as <- <-.
        assert (Ip : In r' popped).
        { eapply Permutation_in; [exact P1|]. apply in_or_app. now left. }
        split.
        -- rewrite Forall_forall in Fp. now apply Fp.
        -- exists [], days. split; [reflexivity|]. rewrite app_nil_r.
           apply Hdone. apply in_or_app. now left.
      * destruct (H2 _ _ I) as (Hlt & l1 & l2 & -> & F).
        split; [exact Hlt|]. exists (d :: l1), l2. split; [reflexivity|].
        rewrite <- app_assoc in F. exact F.
Qed.

Lemma pending_perm (recs : list Rec) (first_date : date) :
  Permutation (pending recs first_date)
              (filter (fun x => date_ltb first_date (rec_date x)) recs).
Proof.
  unfold pending. rewrite <- Permutation_rev. symmetry.
  apply sorted_desc_perm.
Qed.

Lemma pending_sorted (recs : list Rec) (first_date : date) :
  StronglySorted rec_le (pending recs first_date).
Proof. apply StronglySorted_rev. apply sorted_desc_sorted. Qed.

(** C4. Every recommendation that reaches the action dispatch of a run
    is one of the given recommendations dated strictly after
    [first_date] (those dated on or before it are filtered out), and it
    takes effect on a trading day [t] strictly after its own date [d]
    such that no earlier day of the benchmark's index is after [d]; with
    the index ascending, [t] is the earliest trading day after [d]. The
    recommendations applied form, with the dropped and the still pending
    ones, a rearrangement of the filtered list, so none is applied more
    than once. *)
Theorem recommendation_applied_next_trading_day :
  forall (recs queue : list Rec) (first_date last_date : date) (st : State),
    run yf_history recs first_date last_date = Ok (queue, st) ->
    let index := hist_index (yf_history SnP500 first_date (Some last_date)) in
    (forall t r,
        In (t, r) (applied st) ->
        In r recs /\
        date_lt first_date (rec_date r) /\
        date_lt (rec_date r) t /\
        exists before after,
          index = (before ++ t :: after)%list /\
          Forall (fun t' => date_ltb (rec_date r) t' = false) before) /\
    (StronglySorted date_lt index ->
     forall t r t',
       In (t, r) (applied st) ->
       In t' index -> date_lt (rec_date r) t' ->
       t' = t \/ date_lt t t') /\
    (exists skipped,
        Permutation (map snd (applied st) ++ skipped ++ queue)
                    (filter (fun x => date_ltb first_date (rec_date x)) recs)).
Proof.
  intros recs queue first_date last_date st E index.
  apply run_inv in E. destruct E as (h & G & E).
  apply get_history_Ok in G. subst h. fold index in E.
  destruct (day_loop_applied index index [] _ _ _ _ E
              (pending_sorted recs first_date))
    as (app & skipped & A & P & H).
  { intros r _. constructor. }
  simpl in A. subst app.
  assert (Hmain : forall t r,
             In (t, r) (applied st) ->
             In r recs /\ date_lt first_date (rec_date r) /\
             date_lt (rec_date r) t /\
             exists before after,
               index = (before ++ t :: after)%list /\
               Forall (fun t' => date_ltb (rec_date r) t' = false) before).
  { intros t r I. destruct (H _ _ I) as (Hlt & l1 & l2 & Hsplit & F).
    assert (If : In r (filter (fun x => date_ltb first_date (rec_date x)) recs)).
    { eapply Permutation_in; [apply pending_perm|].
      eapply Permutation_in; [exact P|].
      apply in_or_app. left. apply in_map_iff. exists (t, r). auto. }
    apply filter_In in If. destruct If as [Ir Hf].
    repeat split; auto. exists l1, l2. auto. }
  split; [exact Hmain|]. split.
  - intros Sorted t r t' I It' Hlt.
    destruct (Hmain _ _ I) as (_ & _ & _ & before & after & Hsplit & F).
    rewrite Hsplit in It', Sorted.
    apply in_app_or in It'. destruct It' as [Ib|[->|Ia]].
    + rewrite Forall_forall in F. specialize (F _ Ib).
      unfold date_lt in Hlt. congruence.
    + now left.
    + right. apply StronglySorted_app_r in Sorted.
      inversion Sorted as [|? ? _ Fa]; subst.
      rewrite Forall_forall in Fa. now apply Fa.
  - exists skipped. rewrite P. apply pending_perm.
Qed.
End Timing.

(** * Runs on complete data *)

Lemma hist_loc_index (d : date) (h : History) :
  In d (hist_index h) -> exists p, hist_loc d h = Some p.
Proof.
  induction h as [|[d' b] h IH]; simpl; [tauto|].
  intros [->|I].
  - rewrite date_eqb_refl. eauto.
  - destruct (date_eqb d d'); eauto.
Qed.

Lemma get_loc_nth (d : date) (index : list date) (n : nat) :
  get_loc d index = Ok n -> nth_error index n = Some d.
Proof.
  revert n. induction index as [|d' index IH]; intros n; simpl.
  - discriminate.
  - destruct (date_eqb d d') eqn:E.
    + apply date_eqb_eq in E. subst d'. intros H. now injection H as <-.
    + destruct (get_loc d index) as [m|e]; simpl; [|discriminate].
      intros H. injection H as <-. simpl. now apply IH.
Qed.

Lemma get_loc_total (d : date) (index : list date) :
  In d index -> exists n, get_loc d index = Ok n.
Proof.
  induction index as [|d' index IH]; simpl; [tauto|].
  intros [->|I].
  - rewrite date_eqb_refl. eauto.
  - destruct (date_eqb d d'); [eauto|].
    destruct (IH I) as [n ->]. simpl. eauto.
Qed.

Lemma is_month_end_total (index : list date) (d : date) :
  In d index -> exists b, is_month_end index d = Ok b.
Proof.
  intros I. unfold is_month_end.
  destruct (rev index) as [|l rest] eqn:Er.
  - apply in_rev in I. rewrite Er in I. destruct I.
  - destruct (date_eqb d l) eqn:El; [eauto|].
    destruct (get_loc_total _ _ I) as [n Hn]. rewrite Hn. cbn [bind].
    pose proof (get_loc_nth _ _ _ Hn) as Hnth.
    destruct (nth_error index (n + 1)) as [next|] eqn:En; [eauto|].
    exfalso. apply nth_error_None in En.
    assert (Hlen : List.length index = S n).
    { assert (n < List.length index)%nat
        by (apply nth_error_Some; congruence).
      lia. }
    assert (Hl : nth_error index n = Some l).
    { assert (index = rev (l :: rest)) by (rewrite <- Er; now rewrite rev_involutive).
      subst index. simpl. simpl in Hlen. rewrite length_app in Hlen.
      simpl in Hlen. rewrite nth_error_app2 by lia.
      replace (n - List.length (rev rest))%nat with O by lia. reflexivity. }
    rewrite Hl in Hnth. injection Hnth as ->.
    rewrite date_eqb_refl in El. discriminate.
Qed.

Lemma in_keys_del_neq {V : Type} (k k' : string) (d : dict V) :
  k <> k' -> In k' (dict_keys d) -> In k' (dict_keys (dict_del k d)).
Proof.
  intros N I. apply dict_In_get in I. destruct I as [v G].
  rewrite <- (dict_get_del_neq k k' d N) in G.
  eapply dict_get_Some_In; eauto.
Qed.

(** The dispatch cannot fail while the benchmark key is present and the
    benchmark has a bar for the day. *)
Lemma apply_action_total (d : date) (symbol : string) (price : Bar)
      (action : string) (st : State) (snp_hist : History) (snp_bar : Bar) :
  (symbol = SnP500 -> action <> "sell"%string) ->
  In SnP500 (dict_keys (portfolio st)) ->
  dict_get SnP500 (history st) = Some snp_hist ->
  hist_loc d snp_hist = Some snp_bar ->
  exists st',
    apply_action d symbol price action st = Ok st' /\
    In SnP500 (dict_keys (portfolio st')).
Proof.
  intros Hkeep I Hh Hb. unfold apply_action.
  destruct (String.eqb action "buy").
  { destruct (Qle_bool INVESTMENT (cash st)) eqn:C.
    - apply Qle_bool_iff in C.
      destruct (do_buy_covered d symbol price st C)
        as (st' & E & _ & _ & _ & _ & _).
      exists st'. split; [exact E|].
      apply do_buy_inv in E.
      destruct E as (_ & _ & _ & [(_ & -> & _) | (sb & held & _ & _ & _ & -> & _)]);
        repeat apply keys_set_incl; exact I.
    - apply Qle_bool_false in C.
      assert (Hs : exists held,
                 dict_get SnP500
                   (dict_set symbol (bought symbol price st) (portfolio st))
                 = Some held).
      { apply dict_In_get. apply keys_set_incl. exact I. }
      destruct Hs as [held Hheld].
      rewrite (do_buy_shortfall d symbol price st snp_hist snp_bar held
                 C Hh Hb Hheld).
      eexists. split; [reflexivity|]. simpl.
      repeat apply keys_set_incl. exact I. }
  destruct (String.eqb_spec action "sell") as [->|_].
  { eexists. split; [reflexivity|]. unfold do_sell.
    destruct (dict_get symbol (portfolio st)); [|exact I].
    simpl. apply in_keys_del_neq; [|exact I].
    intros ->. now apply Hkeep. }
  destruct (String.eqb action "reduce").
  { eexists. split; [reflexivity|]. unfold do_reduce.
    destruct (dict_get symbol (portfolio st)); [|exact I].
    simpl. apply keys_set_incl. exact I. }
  eauto.
Qed.

Section Totality.
Variable yf_history : string -> date -> option date -> History.
Variables first_date last_date : date.

Local Abbreviation snp_hist := (yf_history SnP500 first_date (Some last_date)).
Local Abbreviation index := (hist_index snp_hist).

Hypothesis no_duplicates :
  forall symbol start e,
    has_duplicates (hist_index (yf_history symbol start e)) = false.
Hypothesis complete :
  forall symbol start d,
    In start index -> In d index -> date_ltb d start = false ->
    hist_empty (yf_history symbol start None) = false ->
    In d (hist_index (yf_history symbol start None)).

Lemma get_history_total (symbol : string) (start : date) (e : option date) :
  get_history yf_history symbol start e = Ok (yf_history symbol start e).
Proof.
  unfold get_history. destruct (hist_empty _); [reflexivity|].
  now rewrite no_duplicates.
Qed.

Lemma process_rec_total (d : date) (todo : list date) (r : Rec) (st : State) :
  In d index ->
  Forall (fun d' => date_ltb d' d = false) todo ->
  keeps_benchmark r ->
  covered yf_history first_date last_date todo st ->
  exists st',
    process_rec yf_history d r st = Ok st' /\
    covered yf_history first_date last_date todo st'.
Proof.
  intros Id Hmin Hkeep (R & I & Hs & Hc).
  destruct (hist_loc_index d snp_hist Id) as [sb Hsb].
  assert (T : exists st', process_rec yf_history d r st = Ok st').
  { unfold process_rec.
    destruct (dict_mem (rec_symbol r) (history st)) eqn:M; cbn [bind].
    - apply dict_mem_true, dict_In_get in M. destruct M as [h Hh].
      rewrite (dict_find_Some _ _ _ Hh). cbn [bind].
      destruct (hist_loc d h) as [price|]; [|eauto].
      destruct (apply_action_total d (rec_symbol r) price
                  (lower (rec_recommendation r)) (note_applied d r st)
                  snp_hist sb Hkeep I Hs Hsb) as (st' & E & _).
      eauto.
    - apply dict_mem_false in M. rewrite get_history_total. cbn [bind].
      destruct (hist_empty _); cbn [bind]; [eauto|].
      unfold dict_find. cbn [history set_history].
      rewrite dict_get_set_eq. cbn [bind].
      destruct (hist_loc d (yf_history (rec_symbol r) d None)) as [price|];
        [|eauto].
      assert (N : rec_symbol r <> SnP500) by congruence.
      assert (Hs1 : dict_get SnP500
                      (dict_set (rec_symbol r)
                         (yf_history (rec_symbol r) d None) (history st))
                    = Some snp_hist)
        by (rewrite dict_get_set_neq by exact N; exact Hs).
      destruct (apply_action_total d (rec_symbol r) price
                  (lower (rec_recommendation r))
                  (note_applied d r
                     (set_history
                        (dict_set (rec_symbol r)
                           (yf_history (rec_symbol r) d None) (history st))
                        st))
                  snp_hist sb Hkeep I Hs1 Hsb) as (st' & E & _).
      eauto. }
  destruct T as [st' E]. exists st'. split; [exact E|].
  split; [eapply reach_action; eauto|].
  pose proof E as E'. apply process_rec_inv in E'.
  destruct E' as (hs & Hhs & Hst).
  assert (Hs' : dict_get SnP500 hs = Some snp_hist).
  { destruct Hhs as [->|(Hn & _ & ->)]; [exact Hs|].
    rewrite dict_get_set_neq; [exact Hs | congruence]. }
  assert (Hc' : forall s h,
             s <> SnP500 -> dict_get s hs = Some h ->
             exists start,
               In start index /\ h = yf_history s start None /\
               hist_empty h = false /\
               Forall (fun d' => date_ltb d' start = false) todo).
  { destruct Hhs as [->|(Hn & He & ->)]; [exact Hc|].
    intros s h N G. destruct (string_dec (rec_symbol r) s) as [<-|N'].
    - rewrite dict_get_set_eq in G. injection G as <-. exists d. auto.
    - rewrite dict_get_set_neq in G by exact N'. now apply Hc. }
  destruct Hst as [-> | [[-> _] | (price & Hp & E0)]].
  - auto.
  - auto.
  - destruct (apply_action_frame _ _ _ _ _ _ E0) as (Hh & _).
    simpl in Hh. rewrite Hh.
    destruct (apply_action_total d (rec_symbol r) price
                (lower (rec_recommendation r))
                (note_applied d r (set_history hs st))
                snp_hist sb Hkeep I Hs' Hsb) as (st'' & E1 & I').
    rewrite E0 in E1. injection E1 as <-. auto.
Qed.

Lemma covered_tail (d : date) (todo : list date) (st : State) :
  covered yf_history first_date last_date (d :: todo) st ->
  covered yf_history first_date last_date todo st.
Proof.
  intros (R & I & Hs & Hc). repeat split; auto.
  intros s h N G. destruct (Hc s h N G) as (start & Is & -> & He & F).
  exists start. inversion F; subst. auto.
Qed.

Lemma rec_loop_total (d : date) (todo : list date) (queue : list Rec) :
  In d index ->
  Forall (fun d' => date_ltb d' d = false) todo ->
  Forall keeps_benchmark queue ->
  forall st,
    covered yf_history first_date last_date todo st ->
    exists queue' st',
      rec_loop yf_history d queue st = Ok (queue', st') /\
      Forall keeps_benchmark queue' /\
      covered yf_history first_date last_date todo st'.
Proof.
  intros Id Hmin. induction 1 as [|r queue Hr Hq IH]; intros st C.
  - simpl. eauto.
  - cbn [rec_loop]. destruct (date_ltb (rec_date r) d).
    + destruct (process_rec_total d todo r st Id Hmin Hr C) as (st1 & -> & C1).
      cbn [bind]. now apply IH.
    + exists (r :: queue), st. auto.
Qed.

Lemma valuate_covered (d : date) (todo : list date) (st : State) :
  covered yf_history first_date last_date todo st ->
  exists st',
    valuate d st = Ok st' /\
    covered yf_history first_date last_date todo st'.
Proof.
  intros (R & I & Hs & Hc).
  destruct (reachable_wf _ _ _ _ R) as [ND T].
  destruct (valuate_total d st T) as [st' E]. exists st'. split; [exact E|].
  destruct (valuate_spec d st st' ND E) as (Hh & _ & _ & _ & Hk & _).
  split; [eapply reach_valuation; eauto|]. rewrite Hh, Hk. auto.
Qed.

Lemma report_loop_total (d : date) (todo : list date) (st : State) :
  In d index -> In d todo ->
  covered yf_history first_date last_date todo st ->
  forall keys,
    incl keys (dict_keys (portfolio st)) ->
    report_loop d st keys = Ok tt.
Proof.
  intros Id It (R & I & Hs & Hc).
  destruct (reachable_wf _ _ _ _ R) as [ND T].
  induction keys as [|k keys IH]; intros Hincl; simpl; [reflexivity|].
  assert (Hrest : incl keys (dict_keys (portfolio st)))
    by (intros x Hx; apply Hincl; now right).
  destruct (String.eqb_spec k SnP500) as [->|N]; [now apply IH|].
  assert (Ik : In k (dict_keys (portfolio st))) by (apply Hincl; now left).
  destruct (dict_In_get _ _ (T k Ik)) as [h Hh].
  rewrite (dict_find_Some _ _ _ Hh). cbn [bind].
  destruct (Hc k h N Hh) as (start & Is & -> & He & F).
  rewrite Forall_forall in F.
  destruct (hist_loc_index d _ (complete k start d Is Id (F d It) He))
    as [p ->].
  destruct (dict_In_get _ _ Ik) as [n Hn].
  rewrite (dict_find_Some _ _ _ Hn). cbn [bind]. now apply IH.
Qed.

Lemma simulate_day_total (d : date) (todo : list date)
      (queue : list Rec) (st : State) :
  In d index ->
  Forall (fun d' => date_ltb d' d = false) (d :: todo) ->
  Forall keeps_benchmark queue ->
  covered yf_history first_date last_date (d :: todo) st ->
  exists queue' st',
    simulate_day yf_history index d (queue, st) = Ok (queue', st') /\
    Forall keeps_benchmark queue' /\
    covered yf_history first_date last_date todo st'.
Proof.
  intros Id Hmin Hq C. unfold simulate_day. simpl.
  destruct (rec_loop_total d (d :: todo) queue Id Hmin Hq st C)
    as (q1 & st1 & -> & Hq1 & C1). cbn [bind].
  destruct (valuate_covered d (d :: todo) st1 C1) as (st2 & -> & C2).
  cbn [bind].
  assert (Hrep : month_end_report index d st2 = Ok tt).
  { unfold month_end_report.
    destruct (is_month_end_total index d Id) as [b ->]. cbn [bind].
    destruct b; [|reflexivity].
    apply (report_loop_total d (d :: todo) st2 Id (or_introl eq_refl) C2).
    apply incl_refl. }
  rewrite Hrep. cbn [bind]. exists q1, st2.
  split; [reflexivity|]. split; [exact Hq1|]. eapply covered_tail; eauto.
Qed.

Lemma day_loop_total (days : list date) :
  StronglySorted date_lt days ->
  incl days index ->
  forall queue st,
    Forall keeps_benchmark queue ->
    covered yf_history first_date last_date days st ->
    exists queue' st',
      day_loop yf_history index days (queue, st) = Ok (queue', st').
Proof.
  induction 1 as [|d days S IH F]; intros Hincl queue st Hq C.
  - simpl. eauto.
  - cbn [day_loop].
    assert (Hmin : Forall (fun d' => date_ltb d' d = false) (d :: days)).
    { constructor; [apply date_ltb_irrefl|].
      eapply Forall_impl; [|exact F]. intros d' H. now apply date_ltb_asym. }
    destruct (simulate_day_total d days queue st
                (Hincl d (or_introl eq_refl)) Hmin Hq C)
      as (q1 & st1 & -> & Hq1 & C1).
    cbn [bind]. apply IH; auto.
    intros x Hx. apply Hincl. now right.
Qed.
Lemma pending_keeps_benchmark (recs : list Rec) :
  Forall keeps_benchmark recs ->
  Forall keeps_benchmark (pending recs first_date).
Proof.
  intros F. rewrite Forall_forall in *. intros r I. apply F.
  apply (Permutation_in _ (pending_perm recs first_date)) in I.
  apply filter_In in I. tauto.
Qed.

(** A run on complete data returns. When the provider returns no
    duplicate dates, the benchmark's index is ascending, every non-empty
    history fetched on a trading day has a bar for that day and every
    later trading day, and no recommendation sells the benchmark symbol,
    [simulate_portfolio] returns a table with one row per trading day. *)
Theorem run_returns_on_complete_data :
  forall recs : list Rec,
    StronglySorted date_lt index ->
    Forall keeps_benchmark recs ->
    exists rows,
      simulate_portfolio yf_history recs first_date last_date = Ok rows /\
      map row_date rows = index.
Proof.
  intros recs Sorted Hrecs. unfold simulate_portfolio, run.
  rewrite get_history_total. cbn [bind].
  assert (R0 : reachable yf_history first_date last_date
                         (initial_state snp_hist)).
  { apply reach_init. apply get_history_total. }
  destruct (day_loop_total index Sorted (incl_refl _)
              (pending recs first_date) (initial_state snp_hist)
              (pending_keeps_benchmark recs Hrecs))
    as (queue & st & E).
  { split; [exact R0|]. split; [simpl; now left|]. split; [reflexivity|].
    intros s h N G. simpl in G.
    destruct (String.eqb_spec s SnP500); [contradiction | discriminate]. }
  rewrite E. cbn [bind]. eexists. split; [reflexivity|].
  destruct (day_loop_rows yf_history first_date last_date index index
              (pending recs first_date, initial_state snp_hist) (queue, st)
              R0 E) as (rows & Hd & Hdates).
  simpl in Hd. simpl. now rewrite Hd.
Qed.
End Totality.

(** After the benchmark's key has been deleted (by a SELL of the
    benchmark symbol), a BUY of another symbol that cash does not cover
    raises KeyError at line 117. *)
Theorem shortfall_without_benchmark_key_raises :
  forall (d : date) (symbol : string) (price : Bar) (st : State)
         (snp_hist : History) (snp_bar : Bar),
    cash st < INVESTMENT ->
    symbol <> SnP500 ->
    dict_get SnP500 (portfolio st) = None ->
    dict_get SnP500 (history st) = Some snp_hist ->
    hist_loc d snp_hist = Some snp_bar ->
    do_buy d symbol price st = Raise KeyError.
Proof.
  intros d symbol price st snp_hist snp_bar C N Hp Hh Hb.
  apply Qle_bool_false in C. unfold do_buy, dict_find.
  destruct (dict_get symbol (portfolio st));
    cbn [cash history portfolio set_portfolio]; rewrite C, Hh; cbn [bind];
    rewrite Hb; cbn [bind]; rewrite dict_get_set_neq by exact N;
    rewrite Hp; reflexivity.
Qed.

(** * Concrete runs *)

Lemma run_full_ok :
  run yf_full recs_buy_aaa (jan 1) (jan 31) = Ok (full_queue, full_state).
Proof. vm_compute. reflexivity. Qed.


Lemma yf_full_high_pos (symbol : string) (start : date) (e : option date) :
  Forall (fun x => 0 < High (snd x)) (yf_full symbol start e).
Proof.
  unfold yf_full, spy_bars.
  destruct (String.eqb symbol "SPY"); [|destruct (String.eqb symbol "AAA")];
    repeat constructor.
Qed.

Lemma st_held_keys : NoDup (dict_keys (portfolio st_held)).
Proof.
  simpl. repeat constructor; simpl; intuition discriminate.
Qed.

Lemma st_held_tracked (k : string) :
  In k (dict_keys (portfolio st_held)) -> In k (dict_keys (history st_held)).
Proof. simpl. tauto. Qed.

(** C5 at work: a REDUCE of 5 shares of AAA at a Low of 40 sells
    floor(5/2) = 2 shares and keeps 3. *)
Lemma reduce_halves_position_witness :
  exists st',
    process_rec yf_full (jan 3) (rec_on (jan 2) "AAA" "Reduce") st_held
      = Ok st' /\
    cash st' = 0 + inject_Z 2 * 40 /\
    dict_get "AAA"%string (portfolio st') = Some (5 - inject_Z 2).
Proof.
  destruct (reduce_halves_position yf_full (jan 3)
              (rec_on (jan 2) "AAA" "Reduce") st_held
              (yf_full "AAA" (jan 3) None) (bar 50 40 45 0) 5
              eq_refl eq_refl eq_refl eq_refl)
    as (st' & E & Hc & Hp & _).
  exists st'. split; [exact E|]. split; [exact Hc | exact Hp].
Defined.

(** C7 at work: a SELL of the 5 shares of AAA at a Low of 40. *)
Lemma sell_closes_position_witness :
  exists st',
    process_rec yf_full (jan 3) (rec_on (jan 2) "AAA" "SELL") st_held
      = Ok st' /\
    cash st' = 0 + 5 * 40 /\
    dict_get "AAA"%string (portfolio st') = None.
Proof.
  destruct (proj1 (sell_closes_position yf_full (jan 3)
                     (rec_on (jan 2) "AAA" "SELL") st_held
                     eq_refl st_held_keys)
              (yf_full "AAA" (jan 3) None) (bar 50 40 45 0) 5
              eq_refl eq_refl eq_refl)
    as (st' & E & Hc & Hp & _).
  exists st'. split; [exact E|]. split; [exact Hc | exact Hp].
Defined.

(** C1: buying the benchmark itself with no cash books the shortfall
    purchase on the same key, so the position grows from 0 to 200 shares
    and not by [INVESTMENT / High] = 100. *)
Lemma buy_of_benchmark_counterexample :
  exists st' n',
    bar_at (jan 3) (history (initial_state spy_bars)) "SPY"
      = Some (bar 100 90 95 0) /\
    dict_get "SPY"%string (portfolio (initial_state spy_bars)) = Some 0 /\
    process_rec yf_full (jan 3) (rec_on (jan 2) "SPY" "BUY")
                (initial_state spy_bars) = Ok st' /\
    dict_get "SPY"%string (portfolio st') = Some n' /\
    n' == 200 /\
    ~ n' == 0 + INVESTMENT / High (bar 100 90 95 0).
Proof.
  eexists. eexists. split; [reflexivity|]. split; [reflexivity|].
  split; [vm_compute; reflexivity|]. split; [reflexivity|].
  split; [reflexivity | discriminate].
Qed.

(** C1 (as amended) at work: a BUY of AAA with no cash, next to the
    benchmark key. *)
Lemma buy_books_shares_and_funding_witness :
  exists st',
    process_rec yf_full (jan 3) (rec_on (jan 2) "AAA" "BUY") st_held = Ok st' /\
    dict_get "AAA"%string (portfolio st') = Some (5 + INVESTMENT / 50) /\
    investment st' = 0 + (INVESTMENT - 0) /\
    cash st' = 0.
Proof.
  apply (proj1 (proj2 (buy_books_shares_and_funding yf_full (jan 3)
                         (rec_on (jan 2) "AAA" "BUY") st_held
                         (yf_full "AAA" (jan 3) None) (bar 50 40 45 0)
                         eq_refl eq_refl eq_refl))
               eq_refl ltac:(discriminate) spy_bars (bar 100 90 95 0)
               eq_refl eq_refl eq_refl).
Defined.

(** C3: the shortfall of a BUY raises the benchmark's share count (here
    from 0 to 100); it does not lower it by [shortfall / High]. *)
Lemma shortfall_adds_benchmark_shares_counterexample :
  exists st' n',
    cash st_held < INVESTMENT /\
    dict_get SnP500 (portfolio st_held) = Some 0 /\
    bar_at (jan 3) (history st_held) SnP500 = Some (bar 100 90 95 0) /\
    process_rec yf_full (jan 3) (rec_on (jan 2) "AAA" "BUY") st_held = Ok st' /\
    dict_get SnP500 (portfolio st') = Some n' /\
    n' == 100 /\
    ~ n' == 0 - (INVESTMENT - cash st_held) / High (bar 100 90 95 0).
Proof.
  eexists. eexists. split; [reflexivity|]. split; [reflexivity|].
  split; [reflexivity|]. split; [vm_compute; reflexivity|].
  split; [reflexivity|]. split; [reflexivity | discriminate].
Qed.

(** C3 (as amended) at work. *)
Lemma shortfall_buys_benchmark_witness :
  exists st',
    process_rec yf_full (jan 3) (rec_on (jan 2) "AAA" "BUY") st_held = Ok st' /\
    dict_get SnP500 (portfolio st') = Some (0 + (INVESTMENT - 0) / 100) /\
    investment st' = 0 + (INVESTMENT - 0) /\
    cash st' = 0.
Proof.
  apply (shortfall_buys_benchmark yf_full (jan 3)
           (rec_on (jan 2) "AAA" "BUY") st_held
           (yf_full "AAA" (jan 3) None) (bar 50 40 45 0)
           spy_bars (bar 100 90 95 0) 0
           eq_refl eq_refl eq_refl eq_refl eq_refl eq_refl eq_refl).
Defined.

(** C6 at work: on the day AAA pays a dividend of 2, its 5 shares
    become 5 * (1 + 2/100) before they are valued at the Close of 46. *)
Lemma dividend_accrual_before_valuation_witness :
  exists st' row,
    valuate (jan 4) st_held = Ok st' /\
    dict_get "AAA"%string (portfolio st') = Some (5 * (1 + 2 / 100)) /\
    dict_get "SPY"%string (portfolio st') = Some 0 /\
    data st' = [row] /\
    row_fool row == 5 * (1 + 2 / 100) * 46.
Proof.
  destruct (dividend_accrual_before_valuation (jan 4) st_held
              st_held_keys st_held_tracked)
    as (st' & row & E & Hpos & Hzero & _ & Hdata & Hfool & _).
  exists st', row. split; [exact E|].
  pose proof (Hpos "AAA"%string 5 (bar 50 40 46 2) eq_refl eq_refl eq_refl)
    as Haaa.
  split; [exact Haaa|].
  split; [exact (Hzero "SPY"%string 0 (bar 100 90 96 0)
                       eq_refl eq_refl (Qeq_refl 0))|].
  split; [exact Hdata|].
  rewrite Hfool. simpl. rewrite Haaa. reflexivity.
Defined.

(** C2 at work on a run over two trading days. *)
Lemma one_row_per_trading_day_witness :
  map row_date (data full_state) = [jan 3; jan 4] /\
  exists rows row,
    data full_state = (rows ++ [row])%list /\
    row_date row = jan 4 /\
    row_fool row ==
      cash full_state +
      fool_positions_value (jan 4) (history full_state) (portfolio full_state).
Proof.
  pose proof (one_row_per_trading_day yf_full (jan 1) (jan 31)
                recs_buy_aaa full_queue full_state run_full_ok) as H.
  cbv zeta in H. destruct H as (Hdates & _ & _ & Hlast).
  split; [exact Hdates|]. exact (Hlast [jan 3] (jan 4) eq_refl).
Defined.

(** C4 at work: the BUY dated January 2 is applied on January 3. *)
Lemma recommendation_applied_next_trading_day_witness :
  In (rec_on (jan 2) "AAA" "BUY") recs_buy_aaa /\
  date_lt (jan 1) (jan 2) /\
  date_lt (jan 2) (jan 3).
Proof.
  pose proof (recommendation_applied_next_trading_day yf_full
                recs_buy_aaa full_queue (jan 1) (jan 31) full_state
                run_full_ok) as H.
  cbv zeta in H. destruct H as (Happ & _).
  destruct (Happ (jan 3) (rec_on (jan 2) "AAA" "BUY")
                 (or_introl eq_refl)) as (Hin & Hfirst & Hnext & _).
  split; [exact Hin|]. split; [exact Hfirst | exact Hnext].
Defined.

(** C8: right after initialization the benchmark key is present with a
    share count of 0, and without a shortfall purchase it still is at the
    end of a run. *)
Lemma benchmark_key_holds_zero_counterexample :
  (exists n,
      dict_get SnP500 (portfolio (initial_state spy_bars)) = Some n /\ n == 0) /\
  (exists queue st n,
      run yf_full [] (jan 1) (jan 31) = Ok (queue, st) /\
      dict_get SnP500 (portfolio st) = Some n /\ n == 0).
Proof.
  split.
  - exists 0. split; reflexivity.
  - do 3 eexists. split; [vm_compute; reflexivity|].
    split; reflexivity.
Qed.

Lemma full_state_reachable : reachable yf_full (jan 1) (jan 31) full_state.
Proof.
  destruct (run_inv _ _ _ _ _ run_full_ok) as (snp_hist & G & E).
  exact (run_prefix_reachable _ _ _ _ _ _ _ G E).
Qed.

(** C8 (as amended) at work on the final state of a run. *)
Lemma open_positions_hold_shares_witness :
  exists n, dict_get "AAA"%string (portfolio full_state) = Some n /\ 0 < n.
Proof.
  eexists. split; [reflexivity|].
  refine (proj2 (proj1 (proj2 (open_positions_hold_shares
                                 yf_full (jan 1) (jan 31) yf_full_high_pos))
                       full_state "AAA"%string _
                       full_state_reachable eq_refl) _).
  discriminate.
Defined.


(** C9. A position whose history lacks the bar of a month-end trading
    day aborts the run: the valuation of that day skips the position and
    appends the row, but the month-end listing of lines 157-162 reads
    [history[symbol].loc[current_date]] without the membership test and
    raises KeyError, so no table is returned. *)
Theorem missing_bar_at_month_end_aborts_run :
  simulate_portfolio yf_delisted recs_buy_aaa (jan 1) (jan 31)
    = Raise KeyError /\
  exists queue st st',
    day_loop yf_delisted (hist_index spy_bars) [jan 3]
             (pending recs_buy_aaa (jan 1), initial_state spy_bars)
      = Ok (queue, st) /\
    bar_at (jan 4) (history st) "AAA" = None /\
    valuate (jan 4) st = Ok st' /\
    map row_date (data st') = [jan 3; jan 4] /\
    month_end_report (hist_index spy_bars) (jan 4) st' = Raise KeyError.
Proof.
  split; [vm_compute; reflexivity|].
  do 3 eexists. split; [vm_compute; reflexivity|].
  split; [reflexivity|]. split; [vm_compute; reflexivity|].
  split; reflexivity.
Qed.

Lemma yf_full_no_duplicates (symbol : string) (start : date) (e : option date) :
  has_duplicates (hist_index (yf_full symbol start e)) = false.
Proof.
  unfold yf_full.
  destruct (String.eqb symbol "SPY"); [|destruct (String.eqb symbol "AAA")];
    reflexivity.
Qed.

Lemma yf_full_complete (symbol : string) (start d : date) :
  In start (hist_index (yf_full SnP500 (jan 1) (Some (jan 31)))) ->
  In d (hist_index (yf_full SnP500 (jan 1) (Some (jan 31)))) ->
  date_ltb d start = false ->
  hist_empty (yf_full symbol start None) = false ->
  In d (hist_index (yf_full symbol start None)).
Proof.
  intros _ Id _. unfold yf_full.
  destruct (String.eqb symbol "SPY"); [intros _; exact Id|].
  destruct (String.eqb symbol "AAA"); [intros _; exact Id | discriminate].
Qed.

(** A complete-data run at work: two trading days, two rows. *)
Lemma run_returns_on_complete_data_witness :
  exists rows,
    simulate_portfolio yf_full recs_buy_aaa (jan 1) (jan 31) = Ok rows /\
    map row_date rows = [jan 3; jan 4].
Proof.
  apply (run_returns_on_complete_data yf_full (jan 1) (jan 31)
           yf_full_no_duplicates yf_full_complete recs_buy_aaa).
  - repeat constructor.
  - repeat constructor. intros H. discriminate H.
Defined.

(** The KeyError of line 117 at work: the benchmark key is gone and
    cash is 0. *)
Lemma shortfall_without_benchmark_key_raises_witness :
  do_buy (jan 3) "AAA" (bar 50 40 45 0)
         (mkState [] [] [("SPY"%string, spy_bars)] 0 0 [])
    = Raise KeyError.
Proof.
  apply (shortfall_without_benchmark_key_raises
           (jan 3) "AAA" (bar 50 40 45 0)
           (mkState [] [] [("SPY"%string, spy_bars)] 0 0 [])
           spy_bars (bar 100 90 95 0)).
  - reflexivity.
  - discriminate.
  - reflexivity.
  - reflexivity.
  - reflexivity.
Defined.
